(** * Greedy and 0/1-knapsack food selection (task_6_greedy_dp_food.py)

    A shallow embedding of [greedy_algorithm] and [dynamic_programming]
    and the properties of the two selectors.

    Python values are embedded as follows.
    - [int] is [Z] (unbounded).
    - [Dict[str, Dict[str, int]]] is an association list in insertion
      order whose keys are pairwise distinct ([dict_ok]); the inner
      dictionary, always read at the keys "cost" and "calories", is the
      record [food].
    - A [float] is the rational number it denotes; [truediv] is the
      correctly rounded quotient CPython computes for [int / int].
    - A raised exception is the [Raise] case of [result]. *)

From Stdlib Require Import ZArith QArith Qreduction Sorted Lia.
From stdpp Require Import list strings pretty.

Open Scope Z_scope.

(** ** Exceptions *)

Inductive exn := IndexError | KeyError | ZeroDivisionError | OverflowError.

Inductive result (A : Type) :=
| Ok (a : A)
| Raise (e : exn).
Arguments Ok {A} a.
Arguments Raise {A} e.

#[global] Instance result_ret : MRet result := fun A a => Ok a.

#[global] Instance result_bind : MBind result := fun A B k r =>
  match r with
  | Ok a => k a
  | Raise e => Raise e
  end.

(** [for x in xs: s = body x s], stopping at the first exception. *)
Fixpoint for_each {A S} (xs : list A) (body : A -> S -> result S) (s : S)
  : result S :=
  match xs with
  | [] => Ok s
  | x :: xs' => s' ← body x s; for_each xs' body s'
  end.

(** ** Floats: the key of the greedy sort *)

Module Float.

(** A finite double, held as the rational it denotes; [-0.0] and
    [0.0], which compare equal, are both [0]. *)
Definition float := Q.

(** [x < y] on floats (no NaN or infinity is ever produced here). *)
Definition ltb (x y : float) : bool :=
  match Qcompare x y with
  | Lt => true
  | _ => false
  end.

(** [2^e <= n/d], for [0 < n] and [0 < d]. *)
Definition ge_pow2 (n d e : Z) : bool :=
  if 0 <=? e then d * 2 ^ e <=? n else d <=? n * 2 ^ (- e).

(** [floor (log2 (n/d))], for [0 < n] and [0 < d]. *)
Definition ilog2 (n d : Z) : Z :=
  let k := Z.log2 n - Z.log2 d in
  if ge_pow2 n d k then k else k - 1.

(** [n/d] rounded to the nearest integer, ties to even. *)
Definition round_half_even (n d : Z) : Z :=
  let q := n / d in
  let r := n mod d in
  if (d <? 2 * r) || ((d =? 2 * r) && Z.odd q) then q + 1 else q.

(** [n/d] ([0 < n], [0 < d]) rounded to binary64: 53 significant bits,
    exponents from -1022 (subnormals below), OverflowError when the
    rounded value reaches [2^1024]. *)
Definition round_binary64 (n d : Z) : result float :=
  let e := Z.max (ilog2 n d) (-1022) in
  let s := e - 52 in
  if 0 <=? s then
    let m := round_half_even n (d * 2 ^ s) in
    if 2 ^ 1024 <=? m * 2 ^ s then Raise OverflowError
    else Ok (inject_Z (m * 2 ^ s))
  else
    let m := round_half_even (n * 2 ^ (- s)) d in
    Ok (Qmake m (Z.to_pos (2 ^ (- s)))).

(** Python's [a / b] on ints: ZeroDivisionError for [b = 0], otherwise
    the exact quotient correctly rounded, or OverflowError
    ("integer division result too large for a float"). The exact
    quotient is taken in lowest terms. *)
Definition truediv (a b : Z) : result float :=
  if b =? 0 then Raise ZeroDivisionError
  else
    let q := Qred (Qmake (a * Z.sgn b) (Z.to_pos (Z.abs b))) in
    let n := Qnum q in
    let d := Zpos (Qden q) in
    if n =? 0 then Ok (inject_Z 0)
    else
      v ← round_binary64 (Z.abs n) d;
      Ok (if n <? 0 then Qopp v else v).

End Float.

(** ** Data model *)

(** The inner dictionary [{"cost": int, "calories": int}]. *)
Record food := { cost : Z; calories : Z }.

(** [Dict[str, Dict[str, int]]], in insertion order. *)
Abbreviation food_dict := (list (string * food)).

(** A Python dict holds each key once. *)
Definition dict_ok (food_items : food_dict) : Prop :=
  NoDup (food_items.*1).

(** [food_items[name]]. *)
Fixpoint dict_get (food_items : food_dict) (name : string) : result food :=
  match food_items with
  | [] => Raise KeyError
  | (k, v) :: rest => if String.eqb k name then Ok v else dict_get rest name
  end.

(** The dataclass [SelectionResult]. *)
Record SelectionResult := {
  items : list string;
  total_cost : Z;
  total_calories : Z
}.

(** The module-level table [items] of the script. *)
Definition items_table : food_dict :=
  [ ("pizza"%string, {| cost := 50; calories := 300 |});
    ("hamburger"%string, {| cost := 40; calories := 250 |});
    ("hot-dog"%string, {| cost := 30; calories := 200 |});
    ("pepsi"%string, {| cost := 10; calories := 100 |});
    ("cola"%string, {| cost := 15; calories := 220 |});
    ("potato"%string, {| cost := 25; calories := 350 |}) ].

(** ** Python lists *)

(** The position a (possibly negative) index denotes in a list of
    length [len]; IndexError when out of range. *)
Definition norm_index (len : nat) (i : Z) : result nat :=
  let n := Z.of_nat len in
  if (0 <=? i) && (i <? n) then Ok (Z.to_nat i)
  else if (- n <=? i) && (i <? 0) then Ok (Z.to_nat (n + i))
  else Raise IndexError.

(** [l[i]]. *)
Definition getitem {A} (l : list A) (i : Z) : result A :=
  k ← norm_index (length l) i;
  match l !! k with
  | Some x => Ok x
  | None => Raise IndexError
  end.

(** [l[i] = x]. *)
Definition setitem {A} (l : list A) (i : Z) (x : A) : result (list A) :=
  k ← norm_index (length l) i;
  Ok (<[k := x]> l).

(** [n] numbers counting down from [start]. *)
Fixpoint count_down (n : nat) (start : Z) : list Z :=
  match n with
  | O => []
  | S k => start :: count_down k (start - 1)
  end.

(** [list(range(start, stop, -1))]: empty when [start <= stop]. *)
Definition range_down (start stop : Z) : list Z :=
  count_down (Z.to_nat (start - stop)) start.

(** [list(enumerate(l, k))]. *)
Fixpoint enumerate_from {A} (k : nat) (l : list A) : list (Z * A) :=
  match l with
  | [] => []
  | x :: l' => (Z.of_nat k, x) :: enumerate_from (S k) l'
  end.

(** [list(enumerate(l))]. *)
Definition enumerate {A} (l : list A) : list (Z * A) := enumerate_from 0 l.

(** ** greedy_algorithm *)

(** An entry [(name, cost, calories, ratio)] of [scored]. *)
Definition scored_entry : Type := string * Z * Z * Float.float.

Definition entry_name (x : scored_entry) : string := x.1.1.1.
Definition entry_cost (x : scored_entry) : Z := x.1.1.2.
Definition entry_calories (x : scored_entry) : Z := x.1.2.
Definition entry_ratio (x : scored_entry) : Float.float := x.2.

(** The body of [for name, data in food_items.items()]. *)
Definition scored_step (kv : string * food) (scored : list scored_entry)
  : result (list scored_entry) :=
  let '(name, data) := kv in
  let cost := cost data in
  let calories := calories data in
  if cost <=? 0 then Ok scored
  else
    ratio ← Float.truediv calories cost;
    Ok (scored ++ [(name, cost, calories, ratio)]).

(** The first loop: one entry per dish of positive cost. *)
Definition build_scored (food_items : food_dict) : result (list scored_entry) :=
  for_each food_items scored_step [].

(** [scored.sort(key=lambda x: x[3], reverse=True)]. Python's sort is
    stable, also with [reverse=True], and compares keys with [<] only;
    on keys that [<] orders totally its result is the one of this
    insertion sort. *)
Fixpoint insert_desc (x : scored_entry) (l : list scored_entry)
  : list scored_entry :=
  match l with
  | [] => [x]
  | y :: l' =>
      if Float.ltb (entry_ratio x) (entry_ratio y) then y :: insert_desc x l'
      else x :: y :: l'
  end.

Fixpoint sort_scored (l : list scored_entry) : list scored_entry :=
  match l with
  | [] => []
  | x :: l' => insert_desc x (sort_scored l')
  end.

(** One turn of the second loop on [(chosen, total_cost, total_calories)]. *)
Definition pack_step (budget : Z) (st : list string * Z * Z) (x : scored_entry)
  : list string * Z * Z :=
  let '(chosen, total_cost, total_calories) := st in
  if total_cost + entry_cost x <=? budget then
    (chosen ++ [entry_name x], total_cost + entry_cost x,
     total_calories + entry_calories x)
  else st.

(** The second loop and the result it builds. *)
Definition pack (budget : Z) (sorted : list scored_entry) : SelectionResult :=
  let '(chosen, total_cost, total_calories) :=
    fold_left (pack_step budget) sorted ([], 0, 0) in
  {| items := chosen; total_cost := total_cost;
     total_calories := total_calories |}.

(** The function itself. *)
Definition greedy_algorithm (food_items : food_dict) (budget : Z)
  : result SelectionResult :=
  scored ← build_scored food_items;
  Ok (pack budget (sort_scored scored)).

(** ** dynamic_programming *)

(** The body of [for w in range(budget, cost - 1, -1)] for dish [i]. *)
Definition dp_body (i cost calories : Z) (w : Z)
    (st : list Z * list (list bool)) : result (list Z * list (list bool)) :=
  let '(dp, keep) := st in
  a ← getitem dp (w - cost);
  b ← getitem dp w;
  if a + calories >? b then
    a' ← getitem dp (w - cost);
    dp' ← setitem dp w (a' + calories);
    row ← getitem keep i;
    row' ← setitem row w true;
    keep' ← setitem keep i row';
    Ok (dp', keep')
  else Ok (dp, keep).

(** The body of [for i, name in enumerate(names)]. *)
Definition dp_item (food_items : food_dict) (budget : Z) (ix : Z * string)
    (st : list Z * list (list bool)) : result (list Z * list (list bool)) :=
  let '(i, name) := ix in
  c ← dict_get food_items name;
  let cost := cost c in
  d ← dict_get food_items name;
  let calories := calories d in
  for_each (range_down budget (cost - 1)) (dp_body i cost calories) st.

(** The body of [for i in range(n - 1, -1, -1)] on [(chosen, w)]. *)
Definition rebuild_body (food_items : food_dict) (names : list string)
    (keep : list (list bool)) (i : Z) (st : list string * Z)
  : result (list string * Z) :=
  let '(chosen, w) := st in
  row ← getitem keep i;
  k ← getitem row w;
  if (k : bool) then
    name ← getitem names i;
    c ← dict_get food_items name;
    Ok (chosen ++ [name], w - cost c)
  else Ok (chosen, w).

(** [sum(f(food_items[name]) for name in chosen)]. *)
Fixpoint sum_over (food_items : food_dict) (f : food -> Z)
    (chosen : list string) : result Z :=
  match chosen with
  | [] => Ok 0
  | name :: rest =>
      c ← dict_get food_items name;
      s ← sum_over food_items f rest;
      Ok (f c + s)
  end.

(** [[x] * k]. The count is read as a machine index: below [-2^63], the
    least index of the 64-bit interpreter, that raises OverflowError;
    any other count below one gives the empty list. A list too long to
    be allocated is outside the model. *)
Definition list_mul {A} (x : A) (k : Z) : result (list A) :=
  if k <? - 2 ^ 63 then Raise OverflowError
  else Ok (replicate (Z.to_nat k) x).

(** [[[False] * (budget + 1) for _ in range(n)]]: the rows of [keep]
    come from a list comprehension, one list each, so writing a cell of
    one row leaves the other rows as they are. *)
Definition keep_rows (n budget : Z) : result (list (list bool)) :=
  for_each (seqZ 0 n)
    (fun _ rows => row ← list_mul false (budget + 1); Ok (rows ++ [row])) [].

(** The function itself. *)
Definition dynamic_programming (food_items : food_dict) (budget : Z)
  : result SelectionResult :=
  let names := food_items.*1 in
  let n := Z.of_nat (length names) in
  dp ← list_mul 0 (budget + 1);
  keep ← keep_rows n budget;
  '(dp, keep) ← for_each (enumerate names) (dp_item food_items budget) (dp, keep);
  '(chosen, w) ← for_each (range_down (n - 1) (-1))
                    (rebuild_body food_items names keep) ([], budget);
  let chosen := reverse chosen in
  total_cost ← sum_over food_items cost chosen;
  total_calories ← sum_over food_items calories chosen;
  Ok {| items := chosen; total_cost := total_cost;
        total_calories := total_calories |}.

(** ** The knapsack recurrence the table implements *)

(** Sum of a field over a list of dishes. *)
Definition sum_of (f : food -> Z) (l : food_dict) : Z :=
  foldr (fun kv acc => f kv.2 + acc) 0 l.

(** [knapsack done w]: the content of [dp[w]] once the dishes [done]
    (most recent first) have been processed. *)
Fixpoint knapsack (done : list food) (w : Z) : Z :=
  match done with
  | [] => 0
  | x :: rest =>
      if (cost x <=? w)
         && (knapsack rest (w - cost x) + calories x >? knapsack rest w)
      then knapsack rest (w - cost x) + calories x
      else knapsack rest w
  end.

(** The content of [keep[i][w]] for dish [x] processed after [rest]. *)
Definition kept (x : food) (rest : list food) (w : Z) : bool :=
  (cost x <=? w)
  && (knapsack rest (w - cost x) + calories x >? knapsack rest w).

(** The dishes the backward pass collects from cursor [w], in the order
    it meets them (last dish of the dictionary first). *)
Fixpoint walk (done : food_dict) (w : Z) : food_dict :=
  match done with
  | [] => []
  | kv :: rest =>
      if kept kv.2 (rest.*2) w then kv :: walk rest (w - cost kv.2)
      else walk rest w
  end.

(** The result built from the list of chosen dishes. *)
Definition result_of (sel : food_dict) : SelectionResult :=
  {| items := sel.*1; total_cost := sum_of cost sel;
     total_calories := sum_of calories sel |}.

(** [dp] and a row of [keep] while the inner loop for dish [x] runs:
    the cells from [lo] upwards are already rewritten. *)
Definition dp_stage (x : food) (rest : list food) (budget lo : Z) : list Z :=
  (fun w => if decide (lo <= w) then knapsack (x :: rest) w
            else knapsack rest w) <$> seqZ 0 (budget + 1).

Definition row_stage (x : food) (rest : list food) (budget lo : Z)
  : list bool :=
  (fun w => bool_decide (lo <= w) && kept x rest w) <$> seqZ 0 (budget + 1).

(** [dp] after the dishes [done]. *)
Definition dp_table (done : list food) (budget : Z) : list Z :=
  knapsack done <$> seqZ 0 (budget + 1).

(** Row [i] of [keep] once dish [i] has been processed. *)
Definition keep_row (x : food) (rest : list food) (budget : Z) : list bool :=
  kept x rest <$> seqZ 0 (budget + 1).

(** [keep] after the first [k] dishes. *)
Definition keep_after (foods : list food) (budget : Z) (k : nat)
  : list (list bool) :=
  imap (fun i x => if decide (i < k)%nat
                   then keep_row x (reverse (take i foods)) budget
                   else replicate (Z.to_nat (budget + 1)) false) foods.

(** ** The greedy pass, as functions of the dictionary *)

(** [calories / cost] returns a float. *)
Definition ratio_finite (x : food) : bool :=
  match Float.truediv (calories x) (cost x) with
  | Ok _ => true
  | Raise _ => false
  end.

(** Every dish of positive cost has a ratio: the first loop of
    [greedy_algorithm] meets no OverflowError. *)
Definition ratios_finite (food_items : food_dict) : bool :=
  forallb (fun kv => (cost kv.2 <=? 0) || ratio_finite kv.2) food_items.

(** The entry of [scored] for a dish. *)
Definition score (kv : string * food) : scored_entry :=
  (kv.1, cost kv.2, calories kv.2,
   match Float.truediv (calories kv.2) (cost kv.2) with
   | Ok ratio => ratio
   | Raise _ => inject_Z 0
   end).

(** The dish an entry of [scored] stands for. *)
Definition entry_dish (e : scored_entry) : string * food :=
  (entry_name e, {| cost := entry_cost e; calories := entry_calories e |}).

(** The entries the second loop takes, running total [total_cost]. *)
Fixpoint pack_sel (budget total_cost : Z) (sorted : list scored_entry)
  : list scored_entry :=
  match sorted with
  | [] => []
  | x :: rest =>
      if total_cost + entry_cost x <=? budget
      then x :: pack_sel budget (total_cost + entry_cost x) rest
      else pack_sel budget total_cost rest
  end.

(** [scored] is sorted by ratio, largest first. *)
Definition ratio_desc (l : list scored_entry) : Prop :=
  Sorted (fun x y => Float.ltb (entry_ratio x) (entry_ratio y) = false) l.

(** ** Vocabulary of the properties *)

(** A choice of dishes, each taken at most once, that the budget pays. *)
Definition feasible (food_items : food_dict) (budget : Z) (sel : food_dict)
  : Prop :=
  sel `sublist_of` food_items /\ sum_of cost sel <= budget.

(** [m] is the largest calorie sum of a feasible choice. *)
Definition max_calories (food_items : food_dict) (budget m : Z) : Prop :=
  (exists sel, feasible food_items budget sel /\ sum_of calories sel = m)
  /\ forall sel, feasible food_items budget sel -> sum_of calories sel <= m.

(** Every choice of dishes, each taken at most once. *)
Fixpoint choices (l : food_dict) : list food_dict :=
  match l with
  | [] => [[]]
  | kv :: rest => choices rest ++ (cons kv <$> choices rest)
  end.

(** The optimum by exhaustive search: the largest calorie sum among the
    choices the budget pays (the empty choice gives 0). *)
Definition brute_force (food_items : food_dict) (budget : Z) : Z :=
  foldr Z.max 0
    (sum_of calories <$>
       filter (fun sel => sum_of cost sel <= budget) (choices food_items)).

(** The entry has exactly the ratio [p / q]. *)
Definition ratio_is (p q : Z) (e : scored_entry) : Prop :=
  entry_calories e * q = p * entry_cost e.

#[global] Instance ratio_is_dec p q e : Decision (ratio_is p q e).
Proof. unfold ratio_is. apply _. Defined.

(** Dishes with equal ratios (salad, soup and bread have 2, toast 3),
    and dishes of cost zero and below. *)
Definition tied_dishes : food_dict :=
  [ ("salad"%string, {| cost := 2; calories := 4 |});
    ("toast"%string, {| cost := 1; calories := 3 |});
    ("soup"%string, {| cost := 1; calories := 2 |});
    ("bread"%string, {| cost := 3; calories := 6 |}) ].

Definition odd_dishes : food_dict :=
  [ ("water"%string, {| cost := 0; calories := 5 |});
    ("refund"%string, {| cost := -5; calories := 10 |});
    ("pepsi"%string, {| cost := 10; calories := 100 |}) ].

(** Dishes for the corner cases: a free one, one without calories, and
    one whose ratio is beyond the largest float. *)
Definition free_dish : food_dict :=
  [ ("water"%string, {| cost := 0; calories := 5 |}) ].

Definition empty_dish : food_dict :=
  [ ("ice"%string, {| cost := 1; calories := 0 |}) ].

Definition heavy_dish : food_dict :=
  [ ("feast"%string, {| cost := 1; calories := 2 ^ 1024 |}) ].

(** Dishes are compared field by field. *)
#[global] Instance food_eq_dec : EqDecision food.
Proof. solve_decision. Defined.

(** * The script around the selectors *)

(** ** Text and standard output *)

(** A Python [str]: its code points. *)
Definition text := list N.

(** The code points a UTF-8 byte sequence encodes. *)
Fixpoint utf8_decode (bytes : list N) : text :=
  match bytes with
  | [] => []
  | b :: rest =>
      if (b <? 128)%N then b :: utf8_decode rest
      else if (b <? 224)%N then
        match rest with
        | b2 :: rest2 =>
            N.lor (N.shiftl (N.land b 31) 6) (N.land b2 63)
            :: utf8_decode rest2
        | _ => []
        end
      else if (b <? 240)%N then
        match rest with
        | b2 :: b3 :: rest3 =>
            N.lor (N.shiftl (N.land b 15) 12)
              (N.lor (N.shiftl (N.land b2 63) 6) (N.land b3 63))
            :: utf8_decode rest3
        | _ => []
        end
      else
        match rest with
        | b2 :: b3 :: b4 :: rest4 =>
            N.lor (N.shiftl (N.land b 7) 18)
              (N.lor (N.shiftl (N.land b2 63) 12)
                 (N.lor (N.shiftl (N.land b3 63) 6) (N.land b4 63)))
            :: utf8_decode rest4
        | _ => []
        end
  end.

(** The [str] a string literal of this file, held in UTF-8, denotes;
    dish names are read the same way. *)
Definition text_of (s : string) : text :=
  utf8_decode (Ascii.N_of_ascii <$> String.list_ascii_of_string s).

(** [str(z)], also what an f-string puts for an int. *)
Definition str (z : Z) : text := text_of (pretty z).

(** [f"{s:<width}"] and [f"{s:>width}"]: padded with spaces, never cut. *)
Definition ljust (width : nat) (s : text) : text :=
  s ++ replicate (width - length s) 32%N.

Definition rjust (width : nat) (s : text) : text :=
  replicate (width - length s) 32%N ++ s.

(** ["-" * n]. *)
Definition dashes (n : nat) : text := replicate n 45%N.

(** What has been written to standard output so far. *)
Definition stdout := text.

(** The exceptions of the script: those of the selectors and of the
    lookups, and the two it raises itself. *)
Inductive script_exn := Exn (e : exn) | AssertionError | ValueError.

Inductive outcome (A : Type) :=
| Returned (a : A)
| Raised (e : script_exn).
Arguments Returned {A} a.
Arguments Raised {A} e.

(** A statement that may print and may raise; what was printed before
    an exception stays printed. *)
Definition io (A : Type) : Type := stdout -> stdout * outcome A.

#[global] Instance io_ret : MRet io := fun A a out => (out, Returned a).

#[global] Instance io_bind : MBind io := fun A B k m out =>
  match m out with
  | (out', Returned a) => k a out'
  | (out', Raised e) => (out', Raised e)
  end.

(** [print(s)]: the text and a newline. *)
Definition print (s : text) : io () :=
  fun out => (out ++ s ++ [10%N], Returned ()).

(** A computation of the selectors, run inside the script. *)
Definition lift {A} (r : result A) : io A :=
  fun out =>
    match r with
    | Ok a => (out, Returned a)
    | Raise e => (out, Raised (Exn e))
    end.

(** [raise e]. *)
Definition raise {A} (e : script_exn) : io A := fun out => (out, Raised e).

(** [assert b]. *)
Definition assert (b : bool) : io () :=
  if b then mret () else raise AssertionError.

(** ** print_selection *)

Definition nothing_chosen : text :=
  text_of "Нічого не вибрано (ймовірно, бюджет надто малий).".

(** [f"{'Страва':<12} | {'Вартість':>8} | {'Калорії':>9}"]. *)
Definition table_header : text :=
  ljust 12 (text_of "Страва") ++ text_of " | "
  ++ rjust 8 (text_of "Вартість") ++ text_of " | "
  ++ rjust 9 (text_of "Калорії").

(** [f"{name:<12} | {cost:>8} | {calories:>9}"]. *)
Definition table_row (name : string) (cost calories : Z) : text :=
  ljust 12 (text_of name) ++ text_of " | "
  ++ rjust 8 (str cost) ++ text_of " | " ++ rjust 9 (str calories).

(** The loop [for name in result.items], which reads the module-level
    table [items], not the dictionary the result was computed from. *)
Fixpoint print_rows (names : list string) : io () :=
  match names with
  | [] => mret ()
  | name :: rest =>
      c ← lift (dict_get items_table name);
      let cost := cost c in
      d ← lift (dict_get items_table name);
      let calories := calories d in
      print (table_row name cost calories);;
      print_rows rest
  end.

Definition print_selection (title : text) (result : SelectionResult) : io () :=
  print ([10%N] ++ title);;
  print (dashes (length title));;
  match items result with
  | [] => print nothing_chosen
  | _ =>
      print table_header;;
      print (dashes 36);;
      print_rows (items result);;
      print (dashes 36);;
      print (text_of "Сумарна вартість:  " ++ str (total_cost result));;
      print (text_of "Сумарна калорійність: " ++ str (total_calories result))
  end.

(** ** demo_for_budget *)

Definition demo_heading (budget : Z) : text :=
  [10%N] ++ text_of "=== Демонстрація для бюджету: " ++ str budget
  ++ text_of " ===".

Definition dp_found_more (diff_cal : Z) : text :=
  [10%N] ++ text_of "ДП знайшов набір з на " ++ str diff_cal
  ++ text_of " калорій більше, ніж жадібний алгоритм.".

Definition both_equal : text :=
  [10%N] ++ text_of "Обидва алгоритми дали однакову сумарну калорійність.".

Definition greedy_found_more (diff_cal : Z) : text :=
  [10%N] ++ text_of "Жадібний алгоритм дав на " ++ str (- diff_cal)
  ++ text_of " калорій більше (незвична, але можлива ситуація).".

Definition demo_for_budget (budget : Z) : io () :=
  print (demo_heading budget);;
  greedy_result ← lift (greedy_algorithm items_table budget);
  dp_result ← lift (dynamic_programming items_table budget);
  print_selection (text_of "Жадібний алгоритм") greedy_result;;
  print_selection (text_of "Динамічне програмування") dp_result;;
  let diff_cal := total_calories dp_result - total_calories greedy_result in
  if diff_cal >? 0 then print (dp_found_more diff_cal)
  else if diff_cal =? 0 then print both_equal
  else print (greedy_found_more diff_cal).

(** ** _run_simple_tests *)


(** ** The main block *)



Section main.

(** The builtin [int] on a [str]: the integer read, or [None] for
    ValueError. *)
Variable int : text -> option Z.



End main.

(** What a statement prints when standard output starts empty. *)
Definition printed {A} (m : io A) : text := (m []).1.


(** [m] leaves what was printed before it and adds the same text
    whatever that was. *)
Definition appends {A} (m : io A) : Prop :=
  forall out, m out = (out ++ printed m, (m []).2).

(** ** Tactics *)

(** Run a bind whose first computation is known. *)
Ltac step_bind := cbn [mbind result_bind].

(** Decide a closed proposition by evaluation. *)
Ltac by_compute := apply (bool_decide_unpack _); by vm_compute.

(** ** Python list facts *)

Lemma list_mul_Ok {A} (x : A) k :
  - 2 ^ 63 <= k -> list_mul x k = Ok (replicate (Z.to_nat k) x).
Proof.
  intros Hk. unfold list_mul. by destruct (Z.ltb_spec k (- 2 ^ 63)); [lia|].
Qed.

Lemma list_mul_Raise {A} (x : A) k :
  k < - 2 ^ 63 -> list_mul x k = Raise OverflowError.
Proof.
  intros Hk. unfold list_mul. by destruct (Z.ltb_spec k (- 2 ^ 63)); [|lia].
Qed.

Lemma keep_rows_from (budget : Z) (ixs : list Z) (rows : list (list bool)) :
  - 2 ^ 63 - 1 <= budget ->
  for_each ixs
    (fun _ rows => row ← list_mul false (budget + 1); Ok (rows ++ [row])) rows
  = Ok (rows ++ replicate (length ixs)
                  (replicate (Z.to_nat (budget + 1)) false)).
Proof.
  intros Hb. rewrite list_mul_Ok by lia. revert rows.
  induction ixs as [|i ixs IH]; intros rows; cbn [for_each length replicate].
  - by rewrite app_nil_r.
  - etrans; [exact (IH (rows ++ [replicate (Z.to_nat (budget + 1)) false]))|].
    by rewrite <- app_assoc.
Qed.

Lemma keep_rows_Ok n budget :
  - 2 ^ 63 - 1 <= budget ->
  keep_rows n budget
  = Ok (replicate (Z.to_nat n) (replicate (Z.to_nat (budget + 1)) false)).
Proof.
  intros Hb. unfold keep_rows. rewrite keep_rows_from by done.
  by rewrite length_seqZ.
Qed.

Lemma getitem_Ok {A} (l : list A) (i : Z) (x : A) :
  0 <= i -> l !! Z.to_nat i = Some x -> getitem l i = Ok x.
Proof.
  intros Hi Hx. pose proof (lookup_lt_Some _ _ _ Hx) as Hlt.
  unfold getitem, norm_index.
  assert ((0 <=? i) && (i <? Z.of_nat (length l)) = true) as ->.
  { apply andb_true_iff. split; [apply Z.leb_le | apply Z.ltb_lt]; lia. }
  simpl. by rewrite Hx.
Qed.

Lemma setitem_Ok {A} (l : list A) (i : Z) (x : A) :
  0 <= i < Z.of_nat (length l) -> setitem l i x = Ok (<[Z.to_nat i := x]> l).
Proof.
  intros Hi. unfold setitem, norm_index.
  assert ((0 <=? i) && (i <? Z.of_nat (length l)) = true) as ->.
  { apply andb_true_iff. split; [apply Z.leb_le | apply Z.ltb_lt]; lia. }
  reflexivity.
Qed.

Lemma getitem_nil {A} (i : Z) : getitem (@nil A) i = Raise IndexError.
Proof.
  unfold getitem, norm_index. cbn [length].
  destruct (Z.leb_spec 0 i), (Z.ltb_spec i (Z.of_nat 0)),
    (Z.leb_spec (- Z.of_nat 0) i), (Z.ltb_spec i 0); try reflexivity; lia.
Qed.

Lemma lookup_table {B} (f : Z -> B) budget w :
  0 <= w <= budget -> (f <$> seqZ 0 (budget + 1)) !! Z.to_nat w = Some (f w).
Proof.
  intros Hw. rewrite list_lookup_fmap, lookup_seqZ_lt by lia.
  simpl. f_equal. f_equal. lia.
Qed.

(** ** The forward pass computes the recurrence *)

Lemma knapsack_cons x rest w :
  knapsack (x :: rest) w =
  if kept x rest w then knapsack rest (w - cost x) + calories x
  else knapsack rest w.
Proof. reflexivity. Qed.

Lemma kept_below x rest w : w < cost x -> kept x rest w = false.
Proof.
  intros H. unfold kept. destruct (Z.leb_spec (cost x) w); [lia | done].
Qed.

Lemma length_dp_stage x rest budget lo :
  length (dp_stage x rest budget lo) = Z.to_nat (budget + 1).
Proof. unfold dp_stage. by rewrite length_fmap, length_seqZ. Qed.

Lemma length_row_stage x rest budget lo :
  length (row_stage x rest budget lo) = Z.to_nat (budget + 1).
Proof. unfold row_stage. by rewrite length_fmap, length_seqZ. Qed.

(** Rewriting cell [w] moves the frontier from [w + 1] to [w]. *)
Lemma dp_stage_step x rest budget w :
  0 <= w <= budget ->
  <[Z.to_nat w := knapsack (x :: rest) w]> (dp_stage x rest budget (w + 1))
  = dp_stage x rest budget w.
Proof.
  intros Hw. apply list_eq. intros j.
  destruct (decide (j = Z.to_nat w)) as [->|Hne].
  - rewrite list_lookup_insert_eq
      by (rewrite length_dp_stage; lia).
    unfold dp_stage. rewrite lookup_table by lia.
    by rewrite decide_True by lia.
  - rewrite list_lookup_insert_ne by done.
    unfold dp_stage. rewrite !list_lookup_fmap.
    destruct (seqZ 0 (budget + 1) !! j) as [v|] eqn:Hj; [|done].
    apply lookup_seqZ in Hj as [-> Hj]. simpl. f_equal.
    repeat case_decide; try reflexivity; lia.
Qed.

Lemma row_stage_step x rest budget w :
  0 <= w <= budget ->
  <[Z.to_nat w := kept x rest w]> (row_stage x rest budget (w + 1))
  = row_stage x rest budget w.
Proof.
  intros Hw. apply list_eq. intros j.
  destruct (decide (j = Z.to_nat w)) as [->|Hne].
  - rewrite list_lookup_insert_eq
      by (rewrite length_row_stage; lia).
    unfold row_stage. rewrite lookup_table by lia.
    by rewrite bool_decide_eq_true_2 by lia.
  - rewrite list_lookup_insert_ne by done.
    unfold row_stage. rewrite !list_lookup_fmap.
    destruct (seqZ 0 (budget + 1) !! j) as [v|] eqn:Hj; [|done].
    apply lookup_seqZ in Hj as [-> Hj]. simpl. f_equal. f_equal.
    apply bool_decide_ext. lia.
Qed.

(** One turn of the inner loop. *)
Lemma dp_body_stage (i : nat) x rest budget w keep :
  0 <= cost x <= w -> w <= budget ->
  keep !! i = Some (row_stage x rest budget (w + 1)) ->
  dp_body (Z.of_nat i) (cost x) (calories x) w
    (dp_stage x rest budget (w + 1), keep)
  = Ok (dp_stage x rest budget w, <[i := row_stage x rest budget w]> keep).
Proof.
  intros Hc Hw Hrow. unfold dp_body.
  pose proof (lookup_lt_Some _ _ _ Hrow) as Hi.
  assert (Hget : forall v, 0 <= v <= w ->
            getitem (dp_stage x rest budget (w + 1)) v = Ok (knapsack rest v)).
  { intros v Hv. apply getitem_Ok; [lia|]. unfold dp_stage.
    rewrite lookup_table by lia. by rewrite decide_False by lia. }
  rewrite !Hget by lia. step_bind.
  rewrite <- (dp_stage_step x rest budget w), <- (row_stage_step x rest budget w)
    by lia.
  rewrite knapsack_cons. unfold kept.
  destruct (Z.leb_spec (cost x) w) as [_|]; [|lia]. cbn [andb].
  destruct (knapsack rest (w - cost x) + calories x >? knapsack rest w) eqn:Hgt.
  - rewrite setitem_Ok by (rewrite length_dp_stage; lia).
    step_bind.
    rewrite (getitem_Ok keep (Z.of_nat i) (row_stage x rest budget (w + 1)))
      by (rewrite ?Nat2Z.id; first [lia | done]).
    step_bind.
    rewrite setitem_Ok by (rewrite length_row_stage; lia).
    step_bind.
    rewrite setitem_Ok by lia. step_bind.
    by rewrite Nat2Z.id.
  - f_equal. f_equal.
    + symmetry. apply list_insert_id. unfold dp_stage.
      rewrite lookup_table by lia. by rewrite decide_False by lia.
    + symmetry. rewrite (list_insert_id (row_stage _ _ _ _)).
      * by apply list_insert_id.
      * unfold row_stage. rewrite lookup_table by lia.
        by rewrite bool_decide_eq_false_2 by lia.
Qed.

(** The whole inner loop, started at [w] and run for [j] turns. *)
Lemma inner_loop_stage (i : nat) x rest budget (j : nat) :
  forall w keep,
    0 <= cost x -> w <= budget ->
    Z.of_nat j <= Z.max 0 (w - cost x + 1) ->
    keep !! i = Some (row_stage x rest budget (w + 1)) ->
    for_each (count_down j w) (dp_body (Z.of_nat i) (cost x) (calories x))
      (dp_stage x rest budget (w + 1), keep)
    = Ok (dp_stage x rest budget (w + 1 - Z.of_nat j),
          <[i := row_stage x rest budget (w + 1 - Z.of_nat j)]> keep).
Proof.
  induction j as [|j IH]; intros w keep Hc Hw Hj Hrow.
  - cbn [count_down for_each]. replace (w + 1 - Z.of_nat 0) with (w + 1) by lia.
    by rewrite list_insert_id.
  - cbn [count_down for_each].
    rewrite dp_body_stage by (done || lia). step_bind.
    pose proof (lookup_lt_Some _ _ _ Hrow) as Hi.
    replace (dp_stage x rest budget w)
      with (dp_stage x rest budget (w - 1 + 1)) by (f_equal; lia).
    rewrite IH; [| lia | lia | lia |].
    + rewrite list_insert_insert_eq.
      by replace (w - 1 + 1 - Z.of_nat j) with (w + 1 - Z.of_nat (S j)) by lia.
    + rewrite list_lookup_insert_eq by done. do 2 f_equal. lia.
Qed.

Lemma dp_stage_start x rest budget :
  dp_stage x rest budget (budget + 1) = dp_table rest budget.
Proof.
  unfold dp_stage, dp_table. apply list_fmap_ext. intros j w Hj.
  apply lookup_seqZ in Hj as [-> Hj]. by rewrite decide_False by lia.
Qed.

Lemma row_stage_start x rest budget :
  row_stage x rest budget (budget + 1) = replicate (Z.to_nat (budget + 1)) false.
Proof.
  apply list_eq. intros j. unfold row_stage. rewrite list_lookup_fmap.
  destruct (decide (Z.of_nat j < budget + 1)) as [Hj|Hj].
  - rewrite lookup_seqZ_lt, lookup_replicate_2 by lia. simpl.
    by rewrite bool_decide_eq_false_2 by lia.
  - rewrite lookup_seqZ_ge by lia. symmetry. apply lookup_replicate_None. lia.
Qed.

Lemma dp_stage_end x rest budget lo :
  (forall w, 0 <= w <= budget -> w < lo -> w < cost x) ->
  dp_stage x rest budget lo = dp_table (x :: rest) budget.
Proof.
  intros Hlo. unfold dp_stage, dp_table. apply list_fmap_ext. intros j w Hj.
  apply lookup_seqZ in Hj as [-> Hj]. case_decide; [done|].
  rewrite knapsack_cons, kept_below; [done|]. apply Hlo; lia.
Qed.

Lemma row_stage_end x rest budget lo :
  (forall w, 0 <= w <= budget -> w < lo -> w < cost x) ->
  row_stage x rest budget lo = keep_row x rest budget.
Proof.
  intros Hlo. unfold row_stage, keep_row. apply list_fmap_ext. intros j w Hj.
  apply lookup_seqZ in Hj as [-> Hj]. case_bool_decide; [done|].
  rewrite kept_below; [done|]. apply Hlo; lia.
Qed.

Lemma dict_get_elem_of (food_items : food_dict) name x :
  dict_ok food_items -> (name, x) ∈ food_items ->
  dict_get food_items name = Ok x.
Proof.
  unfold dict_ok. induction food_items as [|[k v] rest IH]; intros Hnd Hin.
  - by apply elem_of_nil in Hin.
  - cbn [dict_get]. rewrite fmap_cons in Hnd. apply NoDup_cons in Hnd as [Hk Hnd].
    apply elem_of_cons in Hin as [Heq|Hin].
    + injection Heq as -> ->. by rewrite String.eqb_refl.
    + destruct (String.eqb_spec k name) as [->|Hne].
      * exfalso. apply Hk. apply list_elem_of_fmap. by exists (name, x).
      * by apply IH.
Qed.

Lemma lookup_keep_after foods budget k i x :
  foods !! i = Some x ->
  keep_after foods budget k !! i =
  Some (if decide (i < k)%nat then keep_row x (reverse (take i foods)) budget
        else replicate (Z.to_nat (budget + 1)) false).
Proof. intros Hx. unfold keep_after. by rewrite list_lookup_imap, Hx. Qed.

Lemma keep_after_S foods budget k x :
  foods !! k = Some x ->
  <[k := keep_row x (reverse (take k foods)) budget]> (keep_after foods budget k)
  = keep_after foods budget (S k).
Proof.
  intros Hx. apply list_eq. intros i.
  pose proof (lookup_lt_Some _ _ _ Hx) as Hk.
  destruct (decide (i = k)) as [->|Hne].
  - rewrite list_lookup_insert_eq by (unfold keep_after; by rewrite length_imap).
    rewrite (lookup_keep_after _ _ _ _ x) by done.
    by rewrite decide_True by lia.
  - rewrite list_lookup_insert_ne by done.
    unfold keep_after. rewrite !list_lookup_imap.
    destruct (foods !! i); [|done]. simpl.
    repeat case_decide; try done; lia.
Qed.

Lemma dp_table_nil budget :
  dp_table [] budget = replicate (Z.to_nat (budget + 1)) 0.
Proof.
  apply list_eq. intros j. unfold dp_table. rewrite list_lookup_fmap.
  destruct (decide (Z.of_nat j < budget + 1)) as [Hj|Hj].
  - by rewrite lookup_seqZ_lt, lookup_replicate_2 by lia.
  - rewrite lookup_seqZ_ge by lia. symmetry. apply lookup_replicate_None. lia.
Qed.

Lemma keep_after_0 (foods : list food) budget :
  keep_after foods budget 0
  = replicate (length foods) (replicate (Z.to_nat (budget + 1)) false).
Proof.
  apply list_eq. intros i. unfold keep_after. rewrite list_lookup_imap.
  destruct (foods !! i) as [x|] eqn:Hi; simpl.
  - apply lookup_lt_Some in Hi. by rewrite lookup_replicate_2 by done.
  - apply lookup_ge_None in Hi. symmetry. by apply lookup_replicate_None.
Qed.

Lemma walk_sublist done w : walk done w `sublist_of` done.
Proof.
  revert w. induction done as [|kv rest IH]; intros w; cbn [walk].
  - constructor.
  - destruct (kept _ _ _); [apply sublist_skip | apply sublist_cons]; apply IH.
Qed.

(** A run of [dynamic_programming] on a dictionary of dishes of
    non-negative cost, with a non-negative budget. *)
(** From budget [-2^63 - 1] on both tables are allocated. *)
Lemma dynamic_programming_in_range (food_items : food_dict) budget :
  - 2 ^ 63 - 1 <= budget ->
  dynamic_programming food_items budget
  = ('(dp, keep) ←
       for_each (enumerate food_items.*1) (dp_item food_items budget)
         (replicate (Z.to_nat (budget + 1)) 0,
          replicate (Z.to_nat (Z.of_nat (length food_items.*1)))
            (replicate (Z.to_nat (budget + 1)) false));
     '(chosen, w) ←
       for_each (range_down (Z.of_nat (length food_items.*1) - 1) (-1))
         (rebuild_body food_items food_items.*1 keep) ([], budget);
     total_cost ← sum_over food_items cost (reverse chosen);
     total_calories ← sum_over food_items calories (reverse chosen);
     Ok {| items := reverse chosen; total_cost := total_cost;
           total_calories := total_calories |}).
Proof.
  intros Hb. unfold dynamic_programming.
  rewrite list_mul_Ok by lia. rewrite keep_rows_Ok by done. done.
Qed.

(** Below it the first allocation fails. *)
Lemma dynamic_programming_below_range (food_items : food_dict) budget :
  budget < - 2 ^ 63 - 1 ->
  dynamic_programming food_items budget = Raise OverflowError.
Proof.
  intros Hb. unfold dynamic_programming. by rewrite list_mul_Raise by lia.
Qed.

Section run.

Context (food_items : food_dict) (budget : Z).
Hypothesis Hok : dict_ok food_items.
Hypothesis Hb : 0 <= budget.
Hypothesis Hcost : Forall (fun kv => 0 <= cost kv.2) food_items.

Lemma dict_get_lookup (k : nat) name x :
  food_items !! k = Some (name, x) -> dict_get food_items name = Ok x.
Proof.
  intros Hk. apply dict_get_elem_of; [done|]. by eapply list_elem_of_lookup_2.
Qed.

Lemma cost_lookup_nonneg (k : nat) name x :
  food_items !! k = Some (name, x) -> 0 <= cost x.
Proof.
  intros Hk. rewrite Forall_forall in Hcost.
  apply (Hcost (name, x)). by eapply list_elem_of_lookup_2.
Qed.

(** Processing dish [k] takes the tables for [k] dishes to the tables
    for [k + 1] dishes. *)
Lemma dp_item_tables (k : nat) name x :
  food_items !! k = Some (name, x) ->
  dp_item food_items budget (Z.of_nat k, name)
    (dp_table (reverse (take k food_items.*2)) budget,
     keep_after food_items.*2 budget k)
  = Ok (dp_table (reverse (take (S k) food_items.*2)) budget,
        keep_after food_items.*2 budget (S k)).
Proof.
  intros Hk. pose proof (cost_lookup_nonneg _ _ _ Hk) as Hc.
  unfold dp_item. rewrite (dict_get_lookup _ _ _ Hk). step_bind.
  unfold range_down.
  assert (Hx : food_items.*2 !! k = Some x) by (by rewrite list_lookup_fmap, Hk).
  set (rest := reverse (take k food_items.*2)).
  rewrite <- (dp_stage_start x rest budget).
  rewrite inner_loop_stage; [| done | lia | lia |].
  - rewrite (take_S_r _ _ x), reverse_snoc by done. fold rest.
    assert (Hlo : forall w, 0 <= w <= budget ->
              w < budget + 1 - Z.of_nat (Z.to_nat (budget - (cost x - 1))) ->
              w < cost x) by lia.
    rewrite dp_stage_end, row_stage_end by done.
    unfold rest. by rewrite keep_after_S.
  - rewrite (lookup_keep_after _ _ _ _ x) by done.
    rewrite decide_False by lia. by rewrite row_stage_start.
Qed.

Lemma forward_pass_from rest :
  forall k,
    drop k food_items = rest ->
    for_each (enumerate_from k rest.*1) (dp_item food_items budget)
      (dp_table (reverse (take k food_items.*2)) budget,
       keep_after food_items.*2 budget k)
    = Ok (dp_table (reverse (take (k + length rest) food_items.*2)) budget,
          keep_after food_items.*2 budget (k + length rest)).
Proof.
  induction rest as [|[name x] rest IH]; intros k Hk.
  - cbn. by rewrite Nat.add_0_r.
  - assert (Hx : food_items !! k = Some (name, x)).
    { rewrite <- (Nat.add_0_r k), <- lookup_drop, Hk. done. }
    rewrite (drop_S _ _ _ Hx) in Hk. injection Hk as Hk.
    cbn [fmap list_fmap enumerate_from for_each fst].
    rewrite (dp_item_tables _ _ _ Hx). step_bind.
    rewrite (IH (S k) Hk). cbn [length].
    by replace (k + S (length rest))%nat with (S k + length rest)%nat by lia.
Qed.

(** The first loop of [dynamic_programming]. *)
Lemma forward_pass :
  for_each (enumerate food_items.*1) (dp_item food_items budget)
    (replicate (Z.to_nat (budget + 1)) 0,
     replicate (Z.to_nat (Z.of_nat (length food_items.*1)))
       (replicate (Z.to_nat (budget + 1)) false))
  = Ok (dp_table (reverse food_items.*2) budget,
        keep_after food_items.*2 budget (length food_items)).
Proof.
  pose proof (forward_pass_from food_items 0%nat eq_refl) as H.
  rewrite take_0, dp_table_nil, keep_after_0 in H.
  rewrite take_ge in H by (rewrite length_fmap; lia).
  rewrite Nat2Z.id, !length_fmap in *. exact H.
Qed.

(** One turn of the backward pass reads [kept]. *)
Lemma rebuild_body_step (j : nat) name x chosen w :
  food_items !! j = Some (name, x) ->
  0 <= w <= budget ->
  rebuild_body food_items food_items.*1
    (keep_after food_items.*2 budget (length food_items))
    (Z.of_nat j) (chosen, w)
  = Ok (if kept x (reverse (take j food_items.*2)) w
        then (chosen ++ [name], w - cost x) else (chosen, w)).
Proof.
  intros Hx Hw. pose proof (lookup_lt_Some _ _ _ Hx) as Hj.
  unfold rebuild_body.
  rewrite (getitem_Ok _ _ (keep_row x (reverse (take j food_items.*2)) budget)).
  2: lia.
  2: { rewrite Nat2Z.id, (lookup_keep_after _ _ _ _ x)
         by (by rewrite list_lookup_fmap, Hx).
       by rewrite decide_True by lia. }
  step_bind.
  rewrite (getitem_Ok _ _ (kept x (reverse (take j food_items.*2)) w)).
  2: lia.
  2: { unfold keep_row. by rewrite lookup_table by lia. }
  step_bind.
  destruct (kept x (reverse (take j food_items.*2)) w); [|done].
  rewrite (getitem_Ok _ _ name)
    by (rewrite ?Nat2Z.id, ?list_lookup_fmap, ?Hx; first [lia | done]).
  step_bind. by rewrite (dict_get_lookup _ _ _ Hx).
Qed.

(** The backward pass over the first [j] dishes collects [walk]. *)
Lemma rebuild_from (j : nat) :
  forall chosen w,
    (j <= length food_items)%nat -> 0 <= w <= budget ->
    exists w',
      for_each (count_down j (Z.of_nat j - 1))
        (rebuild_body food_items food_items.*1
           (keep_after food_items.*2 budget (length food_items)))
        (chosen, w)
      = Ok (chosen ++ (walk (reverse (take j food_items)) w).*1, w').
Proof.
  induction j as [|j IH]; intros chosen w Hj Hw.
  - exists w. cbn. by rewrite app_nil_r.
  - destruct (lookup_lt_is_Some_2 food_items j) as [[name x] Hx]; [lia|].
    pose proof (cost_lookup_nonneg _ _ _ Hx) as Hc.
    cbn [count_down for_each].
    replace (Z.of_nat (S j) - 1) with (Z.of_nat j) by lia.
    rewrite (rebuild_body_step _ name x) by done. step_bind.
    rewrite (take_S_r _ _ _ Hx), reverse_snoc. cbn [walk snd].
    rewrite fmap_reverse, fmap_take.
    destruct (kept x (reverse (take j food_items.*2)) w) eqn:Hkept.
    + unfold kept in Hkept. apply andb_true_iff in Hkept as [Hle _].
      apply Z.leb_le in Hle.
      destruct (IH (chosen ++ [name]) (w - cost x)) as [w' Hw']; [lia | lia |].
      exists w'. rewrite Hw'. cbn [fmap list_fmap fst].
      by rewrite <- app_assoc.
    + destruct (IH chosen w) as [w' Hw']; [lia | lia |].
      exists w'. by rewrite Hw'.
Qed.

Lemma sum_over_names f (sel : food_dict) :
  sel ⊆ food_items -> sum_over food_items f sel.*1 = Ok (sum_of f sel).
Proof.
  induction sel as [|[name x] sel IH]; intros Hsub; [done|].
  cbn [fmap list_fmap fst sum_over].
  rewrite (dict_get_elem_of _ _ x) by (done || apply Hsub; left).
  step_bind. rewrite IH; [done|].
  intros kv Hkv. apply Hsub. by right.
Qed.

(** What [dynamic_programming] returns. *)
Lemma dynamic_programming_walk :
  dynamic_programming food_items budget
  = Ok (result_of (reverse (walk (reverse food_items) budget))).
Proof.
  rewrite dynamic_programming_in_range by lia.
  rewrite forward_pass. step_bind.
  destruct (rebuild_from (length food_items) [] budget) as [w' Hw'];
    [lia | lia |].
  unfold range_down.
  replace (Z.to_nat (Z.of_nat (length food_items.*1) - 1 - -1))
    with (length food_items) by (rewrite length_fmap; lia).
  replace (Z.of_nat (length food_items.*1) - 1)
    with (Z.of_nat (length food_items) - 1) by (rewrite length_fmap; lia).
  rewrite Hw'. cbn [mbind result_bind app].
  rewrite take_ge by lia. rewrite <- fmap_reverse.
  assert (Hsub : reverse (walk (reverse food_items) budget) ⊆ food_items).
  { intros kv Hkv. rewrite elem_of_reverse in Hkv.
    pose proof (elem_of_sublist _ _ _ Hkv
                  (walk_sublist (reverse food_items) budget)) as Hin.
    by rewrite elem_of_reverse in Hin. }
  by rewrite !sum_over_names.
Qed.

End run.

(** ** Sums over lists of dishes *)

Lemma sum_of_cons f kv l : sum_of f (kv :: l) = f kv.2 + sum_of f l.
Proof. reflexivity. Qed.

Lemma sum_of_app f l1 l2 : sum_of f (l1 ++ l2) = sum_of f l1 + sum_of f l2.
Proof.
  induction l1 as [|kv l1 IH]; [done|].
  rewrite <- app_comm_cons, !sum_of_cons, IH. lia.
Qed.

Lemma sum_of_perm f l1 l2 : l1 ≡ₚ l2 -> sum_of f l1 = sum_of f l2.
Proof.
  induction 1 as [|kv l1 l2 _ IH|kv1 kv2 l|l1 l2 l3 _ IH1 _ IH2];
    rewrite ?sum_of_cons; lia.
Qed.

Lemma sum_of_reverse f l : sum_of f (reverse l) = sum_of f l.
Proof. apply sum_of_perm, reverse_Permutation. Qed.

Lemma sum_of_nonneg f l :
  Forall (fun kv => 0 <= f kv.2) l -> 0 <= sum_of f l.
Proof.
  induction 1 as [|kv l Hkv _ IH]; [done|]. rewrite sum_of_cons. lia.
Qed.

(** ** Properties of the recurrence *)

(** The collected dishes are worth [dp[w]]. *)
Lemma walk_calories done w :
  sum_of calories (walk done w) = knapsack done.*2 w.
Proof.
  revert w. induction done as [|kv rest IH]; intros w; [done|].
  cbn [walk]. rewrite fmap_cons, knapsack_cons.
  destruct (kept kv.2 rest.*2 w); [|apply IH].
  rewrite sum_of_cons, IH. lia.
Qed.

(** The collected dishes fit the cursor they were collected from. *)
Lemma walk_cost done w : 0 <= w -> sum_of cost (walk done w) <= w.
Proof.
  revert w. induction done as [|kv rest IH]; intros w Hw; [done|].
  cbn [walk]. destruct (kept kv.2 rest.*2 w) eqn:Hk; [|by apply IH].
  unfold kept in Hk. apply andb_true_iff in Hk as [Hle%Z.leb_le _].
  rewrite sum_of_cons. specialize (IH (w - cost kv.2)). lia.
Qed.

Lemma knapsack_skip x rest w : knapsack rest w <= knapsack (x :: rest) w.
Proof.
  rewrite knapsack_cons. unfold kept.
  destruct (cost x <=? w); cbn [andb]; [|lia].
  destruct (Z.gtb_spec (knapsack rest (w - cost x) + calories x)
              (knapsack rest w)); lia.
Qed.

Lemma knapsack_take x rest w :
  cost x <= w -> knapsack rest (w - cost x) + calories x <= knapsack (x :: rest) w.
Proof.
  intros Hc. rewrite knapsack_cons. unfold kept.
  destruct (Z.leb_spec (cost x) w); [|lia]. cbn [andb].
  destruct (Z.gtb_spec (knapsack rest (w - cost x) + calories x)
              (knapsack rest w)); lia.
Qed.

(** No choice of dishes (each at most once) that fits [w] is worth more
    than [dp[w]]. *)
Lemma knapsack_sublist (sel done : food_dict) :
  sel `sublist_of` done ->
  forall w,
    Forall (fun kv => 0 <= cost kv.2) sel ->
    sum_of cost sel <= w -> sum_of calories sel <= knapsack done.*2 w.
Proof.
  induction 1 as [|kv sel done _ IH|kv sel done _ IH]; intros w Hpos Hfit.
  - done.
  - apply Forall_cons in Hpos as [Hkv Hpos].
    rewrite sum_of_cons in *. rewrite fmap_cons.
    pose proof (sum_of_nonneg cost sel Hpos).
    pose proof (knapsack_take kv.2 done.*2 w).
    specialize (IH (w - cost kv.2) Hpos). lia.
  - rewrite fmap_cons. pose proof (knapsack_skip kv.2 done.*2 w).
    specialize (IH w Hpos Hfit). lia.
Qed.

Lemma knapsack_submseteq (sel done : food_dict) w :
  Forall (fun kv => 0 <= cost kv.2) done ->
  sel ⊆+ done ->
  sum_of cost sel <= w -> sum_of calories sel <= knapsack done.*2 w.
Proof.
  intros Hpos Hsub Hfit.
  apply submseteq_sublist_r in Hsub as (sel' & Hperm & Hsub).
  rewrite (sum_of_perm calories _ _ Hperm).
  rewrite (sum_of_perm cost _ _ Hperm) in Hfit.
  apply knapsack_sublist; [done | | done].
  rewrite Forall_forall in *. intros kv Hkv. apply Hpos.
  by eapply elem_of_sublist.
Qed.

(** With room for every dish, [dp[w]] is the sum of all calories and the
    backward pass collects exactly the dishes that have some. *)
Lemma walk_full done :
  Forall (fun kv => 0 <= cost kv.2 /\ 0 <= calories kv.2) done ->
  forall w,
    sum_of cost done <= w ->
    knapsack done.*2 w = sum_of calories done
    /\ walk done w = filter (fun kv => 0 < calories kv.2) done.
Proof.
  induction 1 as [|kv rest [Hc Hv] Hrest IH]; intros w Hw; [done|].
  rewrite sum_of_cons in Hw.
  assert (0 <= sum_of cost rest).
  { apply sum_of_nonneg. eapply Forall_impl; [done|]. by intros ? []. }
  destruct (IH w) as [Hk1 _]; [lia|].
  destruct (IH (w - cost kv.2)) as [Hk2 Hw2]; [lia|].
  rewrite fmap_cons, knapsack_cons, filter_cons. cbn [walk].
  unfold kept. rewrite Hk1, Hk2.
  destruct (Z.leb_spec (cost kv.2) w); [|lia]. cbn [andb].
  rewrite sum_of_cons.
  destruct (Z.gtb_spec (sum_of calories rest + calories kv.2)
              (sum_of calories rest)).
  - rewrite decide_True by lia. rewrite Hw2. split; [lia | done].
  - rewrite decide_False by lia. split; [lia|]. by apply IH; lia.
Qed.

(** With no budget at all the backward pass collects the free dishes
    that have calories. *)
Lemma walk_zero done :
  Forall (fun kv => 0 <= cost kv.2) done ->
  walk done 0 = filter (fun kv => cost kv.2 = 0 /\ 0 < calories kv.2) done.
Proof.
  induction 1 as [|kv rest Hc Hrest IH]; [done|].
  rewrite filter_cons. cbn [walk]. unfold kept.
  destruct (Z.leb_spec (cost kv.2) 0); cbn [andb].
  - assert (cost kv.2 = 0) as Hz by lia. rewrite Hz, Z.sub_0_r.
    destruct (Z.gtb_spec (knapsack rest.*2 0 + calories kv.2)
                (knapsack rest.*2 0)).
    + rewrite decide_True by lia. by rewrite IH.
    + rewrite decide_False by lia. done.
  - rewrite decide_False by lia. done.
Qed.

(** ** Floats *)

Lemma ltb_irrefl (x : Float.float) : Float.ltb x x = false.
Proof.
  unfold Float.ltb. by rewrite (proj1 (Qeq_alt x x) (Qeq_refl x)).
Qed.

Lemma ltb_asym (x y : Float.float) :
  Float.ltb x y = true -> Float.ltb y x = false.
Proof.
  unfold Float.ltb. rewrite <- (Qcompare_antisym x y).
  by destruct (Qcompare x y).
Qed.

(** Equal quotients round to the same float. *)
Lemma truediv_scale a b c d :
  0 < b -> 0 < d -> a * d = c * b -> Float.truediv a b = Float.truediv c d.
Proof.
  intros Hb Hd Heq. unfold Float.truediv.
  destruct (Z.eqb_spec b 0); [lia|]. destruct (Z.eqb_spec d 0); [lia|].
  rewrite (Qred_complete (a * Z.sgn b # Z.to_pos (Z.abs b))
             (c * Z.sgn d # Z.to_pos (Z.abs d))); [done|].
  unfold Qeq. cbn [Qnum Qden].
  rewrite !Z2Pos.id by lia. rewrite !Z.sgn_pos, !Z.abs_eq by lia. lia.
Qed.

Lemma round_binary64_Raise n d e :
  Float.round_binary64 n d = Raise e -> e = OverflowError.
Proof.
  unfold Float.round_binary64. repeat case_match; congruence.
Qed.

(** Division by zero apart, the only exception of [a / b] is
    OverflowError. *)
Lemma truediv_Raise a b e :
  b <> 0 -> Float.truediv a b = Raise e -> e = OverflowError.
Proof.
  intros Hb. unfold Float.truediv. destruct (Z.eqb_spec b 0); [done|].
  case_match; [done|].
  destruct (Float.round_binary64 _ _) eqn:Hr; step_bind;
    [done|].
  intros [= <-]. by eapply round_binary64_Raise.
Qed.

Lemma pow2_split (x y : Z) : 0 <= x -> 0 <= y -> 2 ^ (x + y) = 2 ^ x * 2 ^ y.
Proof. intros. by apply Z.pow_add_r. Qed.

(** [ilog2] is the exponent of the quotient:
    [2^e <= n/d < 2^(e+1)]. *)
Lemma ilog2_spec n d :
  0 < n -> 0 < d ->
  Float.ge_pow2 n d (Float.ilog2 n d) = true
  /\ Float.ge_pow2 n d (Float.ilog2 n d + 1) = false.
Proof.
  intros Hn Hd.
  destruct (Z.log2_spec n Hn) as [Hn1 Hn2].
  destruct (Z.log2_spec d Hd) as [Hd1 Hd2].
  pose proof (Z.log2_nonneg n) as Ha. pose proof (Z.log2_nonneg d) as Hb.
  set (a := Z.log2 n) in *. set (b := Z.log2 d) in *.
  unfold Float.ilog2. fold a b.
  assert (Hpa : 0 < 2 ^ a) by (apply Z.pow_pos_nonneg; lia).
  assert (Hpb : 0 < 2 ^ b) by (apply Z.pow_pos_nonneg; lia).
  rewrite <- !Z.add_1_r in Hn2, Hd2.
  rewrite pow2_split in Hn2, Hd2 by lia. change (2 ^ 1) with 2 in *.
  destruct (Float.ge_pow2 n d (a - b)) eqn:Hk.
  - split; [done|]. unfold Float.ge_pow2.
    destruct (Z.leb_spec 0 (a - b + 1)) as [Hs|Hs].
    + apply Z.leb_gt.
      replace (a - b + 1) with ((a - b) + 1) by lia.
      assert (a - b = -1 \/ 0 <= a - b) as [He|He] by lia.
      * rewrite He. change (2 ^ (-1 + 1)) with 1.
        assert (a + 1 = b) as Hab by lia. rewrite <- Hab in Hd1.
        rewrite pow2_split in Hd1 by lia. change (2 ^ 1) with 2 in *. lia.
      * rewrite pow2_split by lia. change (2 ^ 1) with 2.
        assert (2 ^ a = 2 ^ b * 2 ^ (a - b)) as Hab
          by (rewrite <- pow2_split by lia; f_equal; lia).
        assert (0 < 2 ^ (a - b)) by (apply Z.pow_pos_nonneg; lia). nia.
    + apply Z.leb_gt.
      assert (2 ^ b = 2 ^ a * 2 * 2 ^ (- (a - b + 1))) as Hab.
      { rewrite <- (Z.pow_1_r 2) at 3. rewrite <- !pow2_split by lia.
        f_equal. lia. }
      assert (0 < 2 ^ (- (a - b + 1))) by (apply Z.pow_pos_nonneg; lia). nia.
  - replace (a - b - 1 + 1) with (a - b) by lia. split; [|done].
    unfold Float.ge_pow2.
    destruct (Z.leb_spec 0 (a - b - 1)) as [Hs|Hs].
    + apply Z.leb_le.
      assert (2 ^ a = 2 ^ b * 2 * 2 ^ (a - b - 1)) as Hab.
      { rewrite <- (Z.pow_1_r 2) at 3. rewrite <- !pow2_split by lia.
        f_equal. lia. }
      assert (0 < 2 ^ (a - b - 1)) by (apply Z.pow_pos_nonneg; lia). nia.
    + apply Z.leb_le.
      assert (2 ^ a * 2 ^ (- (a - b - 1)) = 2 ^ b * 2) as Hab.
      { rewrite <- (Z.pow_1_r 2) at 4. rewrite <- !pow2_split by lia.
        f_equal. lia. }
      assert (0 < 2 ^ (- (a - b - 1))) by (apply Z.pow_pos_nonneg; lia). nia.
Qed.

(** Values CPython prints for the same divisions: [1/3], a tie rounded
    to even, the largest float and the first quotient beyond it. *)
Example truediv_third :
  Float.truediv 1 3 = Ok (6004799503160661 # 18014398509481984).
Proof. by vm_compute. Qed.

Example truediv_tie_to_even :
  Float.truediv (2 ^ 53 + 1) 1 = Ok (inject_Z (2 ^ 53)).
Proof. by vm_compute. Qed.

Example truediv_largest :
  Float.truediv (2 ^ 1024 - 2 ^ 970 - 1) 1
  = Ok (inject_Z (2 ^ 1024 - 2 ^ 971)).
Proof. by vm_compute. Qed.

Example truediv_too_large :
  Float.truediv (2 ^ 1024 - 2 ^ 970) 1 = Raise OverflowError.
Proof. by vm_compute. Qed.

Lemma Qred_num_le (a : Z) (b : positive) :
  Z.abs (Qnum (Qred (a # b))) <= Z.abs a.
Proof.
  unfold Qred.
  pose proof (Z.ggcd_correct_divisors a (Zpos b)) as Hdiv.
  pose proof (Z.ggcd_gcd a (Zpos b)) as Hg.
  pose proof (Z.gcd_nonneg a (Zpos b)) as Hpos.
  destruct (Z.ggcd a (Zpos b)) as [g [aa bb]]. cbn [fst snd Qnum] in *.
  destruct Hdiv as [Ha Hb]. subst g.
  set (g := Z.gcd a (Z.pos b)) in *.
  assert (1 <= g).
  { destruct (Z.eq_dec g 0) as [Hz|]; [|lia]. rewrite Hz in Hb. lia. }
  assert (Z.abs a = g * Z.abs aa)
    by (rewrite Ha at 1; rewrite Z.abs_mul; lia).
  nia.
Qed.

Lemma ilog2_le n d : 0 < n -> 0 < d -> Float.ilog2 n d <= Z.log2 n.
Proof.
  intros Hn Hd. unfold Float.ilog2.
  pose proof (Z.log2_nonneg d). destruct (Float.ge_pow2 _ _ _); lia.
Qed.

Lemma round_half_even_le n d : Float.round_half_even n d <= n / d + 1.
Proof. unfold Float.round_half_even. destruct (_ || _); lia. Qed.

(** Below [2^1023] nothing overflows. *)
Lemma round_binary64_bounded n d :
  0 < n < 2 ^ 1023 -> 0 < d -> exists v, Float.round_binary64 n d = Ok v.
Proof.
  intros Hn Hd. unfold Float.round_binary64.
  set (s := Z.max (Float.ilog2 n d) (-1022) - 52).
  destruct (Z.leb_spec 0 s) as [Hs|_]; [|by eexists].
  assert (Hs' : s <= 970).
  { pose proof (ilog2_le n d ltac:(lia) Hd).
    assert (Z.log2 n < 1023) by (apply Z.log2_lt_pow2; lia). lia. }
  set (D := d * 2 ^ s).
  assert (Hpow : 0 < 2 ^ s) by (apply Z.pow_pos_nonneg; lia).
  assert (HD : 2 ^ s <= D) by (unfold D; nia).
  pose proof (round_half_even_le n D) as Hm.
  pose proof (Z.mul_div_le n D ltac:(lia)) as Hdiv.
  assert (0 <= n / D) by (apply Z.div_pos; lia).
  assert (Float.round_half_even n D * 2 ^ s <= n + 2 ^ s) by nia.
  assert (2 ^ s <= 2 ^ 970) by (apply Z.pow_le_mono_r; lia).
  assert (2 ^ 1024 = 2 * 2 ^ 1023) by reflexivity.
  assert (2 ^ 970 < 2 ^ 1023) by reflexivity.
  destruct (Z.leb_spec (2 ^ 1024) (Float.round_half_even n D * 2 ^ s));
    [lia | by eexists].
Qed.

Lemma truediv_bounded a b :
  0 < b -> Z.abs a < 2 ^ 1023 -> exists v, Float.truediv a b = Ok v.
Proof.
  intros Hb Ha. unfold Float.truediv. destruct (Z.eqb_spec b 0); [lia|].
  rewrite Z.sgn_pos, Z.mul_1_r by lia.
  pose proof (Qred_num_le a (Z.to_pos (Z.abs b))) as Hle.
  destruct (Z.eqb_spec (Qnum (Qred (a # Z.to_pos (Z.abs b)))) 0) as [|Hnz];
    [by eexists|].
  destruct (round_binary64_bounded
              (Z.abs (Qnum (Qred (a # Z.to_pos (Z.abs b)))))
              (Z.pos (Qden (Qred (a # Z.to_pos (Z.abs b))))))
    as [v ->]; [lia | lia |].
  by eexists.
Qed.

(** Every ratio is a float when all calories are below [2^1023] in
    absolute value. *)
Lemma ratios_finite_bounded (food_items : food_dict) :
  Forall (fun kv => Z.abs (calories kv.2) < 2 ^ 1023) food_items ->
  ratios_finite food_items = true.
Proof.
  induction 1 as [|kv rest Hkv _ IH]; [done|].
  cbn [ratios_finite forallb]. apply andb_true_iff. split; [|done].
  destruct (Z.leb_spec (cost kv.2) 0); [done|]. cbn [orb].
  unfold ratio_finite. by destruct (truediv_bounded _ (cost kv.2) H Hkv) as [v ->].
Qed.

(** ** The first loop of [greedy_algorithm] *)

Lemma entry_dish_score kv : entry_dish (score kv) = kv.
Proof. by destruct kv as [name [c v]]. Qed.

Lemma scored_step_skip kv scored :
  cost kv.2 <= 0 -> scored_step kv scored = Ok scored.
Proof.
  intros Hc. destruct kv as [name x]. unfold scored_step.
  by destruct (Z.leb_spec (cost x) 0); [|cbn in Hc; lia].
Qed.

Lemma scored_step_div kv scored :
  0 < cost kv.2 ->
  scored_step kv scored =
  ratio ← Float.truediv (calories kv.2) (cost kv.2);
  Ok (scored ++ [(kv.1, cost kv.2, calories kv.2, ratio)]).
Proof.
  intros Hc. destruct kv as [name x]. unfold scored_step.
  by destruct (Z.leb_spec (cost x) 0); [cbn in Hc; lia|].
Qed.

Lemma build_from_Ok food_items :
  ratios_finite food_items = true ->
  forall scored,
    for_each food_items scored_step scored
    = Ok (scored ++ (score <$> filter (fun kv => 0 < cost kv.2) food_items)).
Proof.
  induction food_items as [|kv rest IH]; intros Hfin scored.
  - cbn. by rewrite app_nil_r.
  - cbn [ratios_finite forallb] in Hfin.
    apply andb_true_iff in Hfin as [Hkv Hrest].
    cbn [for_each]. rewrite filter_cons.
    destruct (decide (0 < cost kv.2)) as [Hc|Hc].
    + rewrite scored_step_div by done.
      destruct (Z.leb_spec (cost kv.2) 0); [lia|]. cbn [orb] in Hkv.
      unfold ratio_finite in Hkv.
      destruct (Float.truediv _ _) as [ratio|] eqn:Hdiv; [|done].
      step_bind. rewrite IH by done.
      rewrite fmap_cons, <- app_assoc. unfold score at 2. by rewrite Hdiv.
    + rewrite scored_step_skip by lia. step_bind. by apply IH.
Qed.

Lemma build_from_inv food_items :
  forall scored l,
    for_each food_items scored_step scored = Ok l ->
    ratios_finite food_items = true.
Proof.
  induction food_items as [|kv rest IH]; intros scored l Hl; [done|].
  cbn [for_each] in Hl. cbn [ratios_finite forallb].
  destruct (Z.leb_spec (cost kv.2) 0) as [Hc|Hc]; cbn [orb andb].
  - rewrite scored_step_skip in Hl by done. by eapply IH.
  - rewrite scored_step_div in Hl by done. unfold ratio_finite at 1.
    destruct (Float.truediv _ _) as [ratio|]; [|done].
    cbn [mbind result_bind] in Hl. by eapply IH.
Qed.

Lemma build_from_Raise food_items :
  forall scored e,
    for_each food_items scored_step scored = Raise e -> e = OverflowError.
Proof.
  induction food_items as [|kv rest IH]; intros scored e He; [done|].
  cbn [for_each] in He.
  destruct (Z.leb_spec (cost kv.2) 0) as [Hc|Hc].
  - rewrite scored_step_skip in He by done. by eapply IH.
  - rewrite scored_step_div in He by done.
    destruct (Float.truediv _ _) as [ratio|e'] eqn:Hdiv;
      cbn [mbind result_bind] in He.
    + by eapply IH.
    + injection He as <-. eapply truediv_Raise; [|done]. lia.
Qed.

Lemma build_scored_Ok food_items :
  ratios_finite food_items = true ->
  build_scored food_items
  = Ok (score <$> filter (fun kv => 0 < cost kv.2) food_items).
Proof. intros Hfin. unfold build_scored. by rewrite build_from_Ok. Qed.

Lemma build_scored_inv food_items scored :
  build_scored food_items = Ok scored ->
  ratios_finite food_items = true
  /\ scored = score <$> filter (fun kv => 0 < cost kv.2) food_items.
Proof.
  intros Hs. pose proof (build_from_inv _ _ _ Hs) as Hfin.
  split; [done|]. rewrite build_scored_Ok in Hs by done. congruence.
Qed.

(** ** The sort *)

Lemma insert_desc_perm x l : insert_desc x l ≡ₚ x :: l.
Proof.
  induction l as [|y l IH]; [done|]. cbn [insert_desc].
  destruct (Float.ltb _ _); [|done].
  rewrite IH. apply Permutation_swap.
Qed.

Lemma sort_scored_perm l : sort_scored l ≡ₚ l.
Proof.
  induction l as [|x l IH]; [done|]. cbn [sort_scored].
  by rewrite insert_desc_perm, IH.
Qed.

Lemma insert_desc_sorted x l : ratio_desc l -> ratio_desc (insert_desc x l).
Proof.
  unfold ratio_desc. induction l as [|y l IH]; intros Hs; cbn [insert_desc].
  - repeat constructor.
  - destruct (Float.ltb (entry_ratio x) (entry_ratio y)) eqn:Hxy.
    + apply Sorted_inv in Hs as [Hs Hhd]. constructor; [by apply IH|].
      destruct l as [|z l]; cbn [insert_desc].
      * constructor. by apply ltb_asym.
      * destruct (Float.ltb (entry_ratio x) (entry_ratio z)).
        -- constructor. by apply HdRel_inv in Hhd.
        -- constructor. by apply ltb_asym.
    + constructor; [done|]. by constructor.
Qed.

Lemma sort_scored_sorted l : ratio_desc (sort_scored l).
Proof.
  induction l as [|x l IH]; cbn [sort_scored].
  - constructor.
  - by apply insert_desc_sorted.
Qed.

(** Entries that share their key keep their relative order. *)
Lemma insert_desc_stable (P : scored_entry -> Prop)
    `{!forall e, Decision (P e)} ratio x l :
  (forall y, y ∈ x :: l -> P y -> entry_ratio y = ratio) ->
  filter P (insert_desc x l) = filter P (x :: l).
Proof.
  induction l as [|y l IH]; intros Hkey; [done|]. cbn [insert_desc].
  destruct (Float.ltb (entry_ratio x) (entry_ratio y)) eqn:Hxy; [|done].
  rewrite filter_cons, IH.
  - rewrite !filter_cons.
    destruct (decide (P x)) as [Hx|Hx], (decide (P y)) as [Hy|Hy]; try done.
    rewrite (Hkey x), (Hkey y), ltb_irrefl in Hxy; try done.
    + right; left.
    + left.
  - intros z Hz. apply Hkey.
    apply elem_of_cons in Hz as [->|Hz]; [left | by do 2 right].
Qed.

Lemma sort_scored_stable (P : scored_entry -> Prop)
    `{!forall e, Decision (P e)} ratio l :
  (forall y, y ∈ l -> P y -> entry_ratio y = ratio) ->
  filter P (sort_scored l) = filter P l.
Proof.
  induction l as [|x l IH]; intros Hkey; [done|]. cbn [sort_scored].
  rewrite (insert_desc_stable P ratio).
  - rewrite !filter_cons, IH; [done|]. intros y Hy. apply Hkey. by right.
  - intros y Hy. apply Hkey.
    apply elem_of_cons in Hy as [->|Hy]; [left|right].
    by rewrite sort_scored_perm in Hy.
Qed.

(** ** The second loop of [greedy_algorithm] *)

Lemma pack_fold budget l :
  forall chosen tc tcal,
    fold_left (pack_step budget) l (chosen, tc, tcal)
    = (chosen ++ (entry_name <$> pack_sel budget tc l),
       tc + sum_of cost (entry_dish <$> pack_sel budget tc l),
       tcal + sum_of calories (entry_dish <$> pack_sel budget tc l)).
Proof.
  induction l as [|x l IH]; intros chosen tc tcal.
  - cbn. by rewrite app_nil_r, !Z.add_0_r.
  - cbn [fold_left pack_step pack_sel].
    destruct (tc + entry_cost x <=? budget); rewrite IH; [|done].
    rewrite !fmap_cons, !sum_of_cons, <- app_assoc.
    cbn [entry_dish snd cost calories app]. by rewrite !Z.add_assoc.
Qed.

Lemma pack_result budget l :
  pack budget l = result_of (entry_dish <$> pack_sel budget 0 l).
Proof.
  unfold pack. rewrite pack_fold. unfold result_of.
  by rewrite <- list_fmap_compose.
Qed.

Lemma pack_sel_sublist budget tc l : pack_sel budget tc l `sublist_of` l.
Proof.
  revert tc. induction l as [|x l IH]; intros tc; cbn [pack_sel].
  - constructor.
  - destruct (_ <=? _); [apply sublist_skip | apply sublist_cons]; apply IH.
Qed.

(** The running total never passes the budget. *)
Lemma pack_sel_cost budget tc l :
  tc <= budget ->
  tc + sum_of cost (entry_dish <$> pack_sel budget tc l) <= budget.
Proof.
  revert tc. induction l as [|x l IH]; intros tc Htc; cbn [pack_sel].
  - cbn. lia.
  - destruct (Z.leb_spec (tc + entry_cost x) budget) as [Hfit|_]; [|by apply IH].
    rewrite fmap_cons, sum_of_cons. cbn [entry_dish snd cost].
    specialize (IH (tc + entry_cost x) Hfit). lia.
Qed.

(** With room for everything, every entry is taken. *)
Lemma pack_sel_all budget tc l :
  Forall (fun e => 0 <= entry_cost e) l ->
  tc + sum_of cost (entry_dish <$> l) <= budget ->
  pack_sel budget tc l = l.
Proof.
  intros Hpos. revert tc.
  induction Hpos as [|x l Hx Hpos IH]; intros tc Hfit; [done|].
  rewrite fmap_cons, sum_of_cons in Hfit. cbn [entry_dish snd cost] in Hfit.
  assert (0 <= sum_of cost (entry_dish <$> l)).
  { apply sum_of_nonneg, Forall_fmap. by eapply Forall_impl. }
  cbn [pack_sel]. destruct (Z.leb_spec (tc + entry_cost x) budget); [|lia].
  rewrite IH; [done | lia].
Qed.

(** With the budget used up, no entry of positive cost is taken. *)
Lemma pack_sel_none budget tc l :
  Forall (fun e => 0 < entry_cost e) l -> budget <= tc ->
  pack_sel budget tc l = [].
Proof.
  induction 1 as [|x l Hx Hpos IH]; intros Htc; [done|].
  cbn [pack_sel]. destruct (Z.leb_spec (tc + entry_cost x) budget); [lia|].
  by apply IH.
Qed.

(** ** [greedy_algorithm] as a function of the dictionary *)

(** The dishes [greedy_algorithm] takes, in the order it takes them. *)
Lemma greedy_algorithm_Ok food_items budget :
  ratios_finite food_items = true ->
  greedy_algorithm food_items budget
  = Ok (result_of
          (entry_dish <$>
             pack_sel budget 0
               (sort_scored
                  (score <$> filter (fun kv => 0 < cost kv.2) food_items)))).
Proof.
  intros Hfin. unfold greedy_algorithm. rewrite build_scored_Ok by done.
  step_bind. by rewrite pack_result.
Qed.

Lemma greedy_algorithm_inv food_items budget r :
  greedy_algorithm food_items budget = Ok r ->
  ratios_finite food_items = true.
Proof.
  unfold greedy_algorithm.
  destruct (build_scored food_items) as [scored|] eqn:Hs; [|done].
  intros _. by apply build_scored_inv in Hs as [? _].
Qed.

Lemma entry_dish_scored (l : food_dict) : entry_dish <$> (score <$> l) = l.
Proof.
  rewrite <- list_fmap_compose. rewrite <- (list_fmap_id l) at 2.
  apply list_fmap_ext. intros i kv _. apply entry_dish_score.
Qed.

Lemma sorted_dishes (l : food_dict) :
  entry_dish <$> sort_scored (score <$> l) ≡ₚ l.
Proof. by rewrite sort_scored_perm, entry_dish_scored. Qed.

(** The dishes taken are dishes of the dictionary, each at most once. *)
Lemma greedy_sel_submseteq (food_items : food_dict) budget :
  entry_dish <$>
    pack_sel budget 0
      (sort_scored (score <$> filter (fun kv => 0 < cost kv.2) food_items))
  ⊆+ food_items.
Proof.
  etrans.
  - apply sublist_submseteq, fmap_sublist, pack_sel_sublist.
  - rewrite sorted_dishes. apply sublist_submseteq, sublist_filter.
Qed.

Lemma scored_costs_positive (l : food_dict) :
  Forall (fun e => 0 < entry_cost e)
    (sort_scored (score <$> filter (fun kv => 0 < cost kv.2) l)).
Proof.
  rewrite sort_scored_perm. apply Forall_fmap, Forall_forall.
  intros kv Hkv. by apply list_elem_of_filter in Hkv as [Hc _].
Qed.

(** ** [dynamic_programming] below budget zero *)

Lemma dict_get_present (food_items : food_dict) name :
  name ∈ food_items.*1 -> exists x, dict_get food_items name = Ok x.
Proof.
  induction food_items as [|[k v] rest IH]; intros Hin.
  - by apply elem_of_nil in Hin.
  - cbn [dict_get]. destruct (String.eqb_spec k name) as [->|Hne]; [by eexists|].
    apply IH. rewrite fmap_cons in Hin.
    by apply elem_of_cons in Hin as [->|Hin].
Qed.

(** On an empty [dp] the inner loop either does not run or stops at its
    first read. *)
Lemma inner_loop_empty i c v ws keep :
  for_each ws (dp_body i c v) ([], keep) = Ok ([], keep)
  \/ for_each ws (dp_body i c v) ([], keep) = Raise IndexError.
Proof.
  destruct ws as [|w ws]; [by left|]. right.
  cbn [for_each]. unfold dp_body. by rewrite getitem_nil.
Qed.

Lemma dp_item_empty (food_items : food_dict) budget keep i name :
  name ∈ food_items.*1 ->
  dp_item food_items budget (i, name) ([], keep) = Ok ([], keep)
  \/ dp_item food_items budget (i, name) ([], keep) = Raise IndexError.
Proof.
  intros Hin. unfold dp_item.
  destruct (dict_get_present food_items name) as [x ->]; [done|].
  step_bind. apply inner_loop_empty.
Qed.

Lemma forward_pass_empty (food_items : food_dict) budget keep names :
  forall k,
    names ⊆ food_items.*1 ->
    for_each (enumerate_from k names) (dp_item food_items budget) ([], keep)
    = Ok ([], keep)
    \/ for_each (enumerate_from k names) (dp_item food_items budget) ([], keep)
       = Raise IndexError.
Proof.
  induction names as [|name names IH]; intros k Hsub; [by left|].
  cbn [enumerate_from for_each].
  destruct (dp_item_empty food_items budget keep (Z.of_nat k) name)
    as [-> | ->]; [apply Hsub; left | | by right].
  step_bind.
  apply IH. intros y Hy. apply Hsub. by right.
Qed.

Lemma rebuild_body_empty_row (food_items : food_dict) names keep i st :
  getitem keep i = Ok [] ->
  rebuild_body food_items names keep i st = Raise IndexError.
Proof.
  intros Hrow. destruct st as [chosen w]. unfold rebuild_body.
  rewrite Hrow. step_bind. by rewrite getitem_nil.
Qed.

Lemma dynamic_programming_nil budget :
  - 2 ^ 63 - 1 <= budget ->
  dynamic_programming [] budget = Ok (result_of []).
Proof. intros Hb. by rewrite dynamic_programming_in_range. Qed.

(** Below budget zero, as long as they are allocated, both tables have
    no cells, and the backward pass stops at its first read of [keep]. *)
Lemma negative_budget_raises (food_items : food_dict) budget :
  - 2 ^ 63 - 1 <= budget < 0 -> food_items <> [] ->
  dynamic_programming food_items budget = Raise IndexError.
Proof.
  intros Hb Hne. rewrite dynamic_programming_in_range by lia.
  replace (Z.to_nat (budget + 1)) with 0%nat by lia. cbn [replicate].
  destruct (forward_pass_empty food_items budget
              (replicate (Z.to_nat (Z.of_nat (length food_items.*1))) [])
              food_items.*1 0%nat) as [H|H]; [done| |].
  - unfold enumerate. rewrite H. step_bind.
    destruct food_items as [|kv rest]; [done|].
    unfold range_down. rewrite length_fmap. cbn [length].
    replace (Z.to_nat (Z.of_nat (S (length rest)) - 1 - -1))
      with (S (length rest)) by lia.
    cbn [count_down for_each]. rewrite rebuild_body_empty_row; [done|].
    apply getitem_Ok; [lia|]. apply lookup_replicate_2. lia.
  - unfold enumerate. by rewrite H.
Qed.

(** Below budget zero only the empty dictionary has a result. *)
Lemma negative_budget_result (food_items : food_dict) budget r :
  budget < 0 ->
  dynamic_programming food_items budget = Ok r ->
  food_items = [] /\ r = result_of [].
Proof.
  intros Hb Hr. destruct (decide (- 2 ^ 63 - 1 <= budget)) as [Hlow|Hlow].
  - destruct food_items as [|kv rest].
    + rewrite dynamic_programming_nil in Hr by done. by injection Hr as <-.
    + by rewrite negative_budget_raises in Hr by (done || lia).
  - by rewrite dynamic_programming_below_range in Hr by lia.
Qed.

(** ** More on sums and filters *)

Lemma filter_fmap_score (P : scored_entry -> Prop) `{!forall e, Decision (P e)}
    (l : food_dict) :
  filter P (score <$> l) = score <$> filter (fun kv => P (score kv)) l.
Proof.
  induction l as [|kv l IH]; [done|].
  rewrite fmap_cons, !filter_cons, IH. by destruct (decide (P (score kv))).
Qed.

Lemma sum_of_cost_positive (l : food_dict) :
  Forall (fun kv => 0 <= cost kv.2) l ->
  sum_of cost (filter (fun kv => 0 < cost kv.2) l) = sum_of cost l.
Proof.
  induction 1 as [|kv l Hkv _ IH]; [done|]. rewrite filter_cons.
  destruct (decide (0 < cost kv.2)); rewrite !sum_of_cons, ?IH; lia.
Qed.

Lemma sum_of_calories_positive (l : food_dict) :
  Forall (fun kv => 0 <= calories kv.2) l ->
  sum_of calories (filter (fun kv => 0 < calories kv.2) l) = sum_of calories l.
Proof.
  induction 1 as [|kv l Hkv _ IH]; [done|]. rewrite filter_cons.
  destruct (decide (0 < calories kv.2)); rewrite !sum_of_cons, ?IH; lia.
Qed.

Lemma sum_of_cost_free (l : food_dict) :
  sum_of cost (filter (fun kv => cost kv.2 = 0 /\ 0 < calories kv.2) l) = 0.
Proof.
  induction l as [|kv l IH]; [done|]. rewrite filter_cons.
  destruct (decide _) as [[Hc _]|_]; rewrite ?sum_of_cons, ?IH; lia.
Qed.

Lemma filter_all {A} (P : A -> Prop) `{!forall x, Decision (P x)} (l : list A) :
  Forall P l -> filter P l = l.
Proof.
  induction 1 as [|x l Hx _ IH]; [done|].
  by rewrite filter_cons_True, IH.
Qed.

Lemma items_result_of sel : items (result_of sel) = sel.*1.
Proof. reflexivity. Qed.

Lemma sublist_reverse {A} (l1 l2 : list A) :
  l1 `sublist_of` l2 -> reverse l1 `sublist_of` reverse l2.
Proof.
  induction 1 as [|x l1 l2 _ IH|x l1 l2 _ IH]; [done| |].
  - rewrite !reverse_cons. by apply sublist_app.
  - rewrite reverse_cons, <- (app_nil_r (reverse l1)).
    apply sublist_app; [done | apply sublist_nil_l].
Qed.

(** The dishes [dynamic_programming] returns are dishes of the
    dictionary, in its order. *)
Lemma walk_reverse_sublist (food_items : food_dict) w :
  reverse (walk (reverse food_items) w) `sublist_of` food_items.
Proof.
  rewrite <- (reverse_involutive food_items) at 2.
  apply sublist_reverse, walk_sublist.
Qed.

(** ** Exhaustive search *)

Lemma elem_of_choices (sel l : food_dict) :
  sel ∈ choices l <-> sel `sublist_of` l.
Proof.
  revert sel. induction l as [|kv rest IH]; intros sel; cbn [choices].
  - rewrite sublist_nil_r. apply list_elem_of_singleton.
  - rewrite sublist_cons_r, elem_of_app, list_elem_of_fmap, IH.
    by setoid_rewrite IH.
Qed.

Lemma foldr_max_ge (x : Z) (l : list Z) : x ∈ l -> x <= foldr Z.max 0 l.
Proof.
  induction 1 as [x l|x y l _ IH]; cbn [foldr]; lia.
Qed.

Lemma foldr_max_le (m : Z) (l : list Z) :
  0 <= m -> Forall (fun x => x <= m) l -> foldr Z.max 0 l <= m.
Proof.
  intros Hm. induction 1 as [|x l Hx _ IH]; cbn [foldr]; lia.
Qed.

Lemma max_calories_brute_force (food_items : food_dict) budget m :
  0 <= budget -> max_calories food_items budget m ->
  m = brute_force food_items budget.
Proof.
  intros Hb [(sel & [Hsub Hfit] & Hm) Hmax]. unfold brute_force.
  apply Z.le_antisymm.
  - apply foldr_max_ge. rewrite <- Hm. apply list_elem_of_fmap_2.
    apply list_elem_of_filter. split; [done | by apply elem_of_choices].
  - apply foldr_max_le.
    + apply (Hmax []). split; [apply sublist_nil_l | done].
    + apply Forall_fmap, Forall_forall. intros s Hs.
      apply list_elem_of_filter in Hs as [Hfit' Hs]. apply Hmax.
      split; [by apply elem_of_choices | done].
Qed.

(** ** The script's own tests *)

Example test_small_budget :
  greedy_algorithm items_table 5 = Ok (result_of [])
  /\ dynamic_programming items_table 5 = Ok (result_of []).
Proof. split; by vm_compute. Qed.

Example test_mid_budget :
  dynamic_programming items_table 60
  = Ok {| items := ["pepsi"; "cola"; "potato"]%string;
          total_cost := 50; total_calories := 670 |}
  /\ brute_force items_table 60 = 670.
Proof. split; by vm_compute. Qed.

Example test_big_budget :
  greedy_algorithm items_table 1000
  = Ok {| items := ["cola"; "potato"; "pepsi"; "hot-dog"; "hamburger";
                    "pizza"]%string;
          total_cost := 170; total_calories := 1420 |}
  /\ dynamic_programming items_table 1000
     = Ok {| items := items_table.*1;
             total_cost := 170; total_calories := 1420 |}.
Proof. split; by vm_compute. Qed.

(** ** The selectors *)

(** C1. On dishes of non-negative cost and a non-negative budget,
    [dynamic_programming] returns a result whose [total_calories] is the
    maximum of the calorie sums of the choices of dishes, each taken at
    most once, whose cost sum is at most the budget: the value an
    exhaustive search finds. *)
Theorem dynamic_programming_optimal (food_items : food_dict) (budget : Z) :
  dict_ok food_items ->
  Forall (fun kv => 0 <= cost kv.2) food_items ->
  0 <= budget ->
  exists r,
    dynamic_programming food_items budget = Ok r
    /\ max_calories food_items budget (total_calories r)
    /\ total_calories r = brute_force food_items budget.
Proof.
  intros Hok Hcost Hb. eexists. split; [by apply dynamic_programming_walk|].
  cbn [result_of total_calories].
  assert (Hmax : max_calories food_items budget
                   (sum_of calories (reverse (walk (reverse food_items) budget)))).
  { split.
    - exists (reverse (walk (reverse food_items) budget)).
      repeat split; [apply walk_reverse_sublist|].
      rewrite sum_of_reverse. by apply walk_cost.
    - intros s [Hs Hfit]. rewrite sum_of_reverse, walk_calories.
      apply knapsack_submseteq; [by apply Forall_reverse | | done].
      rewrite reverse_Permutation. by apply sublist_submseteq. }
  split; [done | by apply max_calories_brute_force].
Qed.

Lemma dynamic_programming_optimal_witness :
  exists r,
    dynamic_programming items_table 60 = Ok r
    /\ max_calories items_table 60 (total_calories r)
    /\ total_calories r = brute_force items_table 60.
Proof.
  apply dynamic_programming_optimal.
  - by_compute.
  - by_compute.
  - lia.
Defined.

(** C2. On every dictionary of dishes of non-negative cost and every
    budget, the [total_calories] of the result of [dynamic_programming]
    is at least the [total_calories] of the result of
    [greedy_algorithm]; [dynamic_programming] has a result for every
    non-negative budget, [greedy_algorithm] whenever every ratio is a
    float. *)
Theorem dynamic_programming_dominates (food_items : food_dict) (budget : Z) :
  dict_ok food_items ->
  Forall (fun kv => 0 <= cost kv.2) food_items ->
  (0 <= budget -> exists rd, dynamic_programming food_items budget = Ok rd)
  /\ (ratios_finite food_items = true ->
      exists rg, greedy_algorithm food_items budget = Ok rg)
  /\ forall rd rg,
       dynamic_programming food_items budget = Ok rd ->
       greedy_algorithm food_items budget = Ok rg ->
       total_calories rg <= total_calories rd.
Proof.
  intros Hok Hcost. split; [|split].
  - intros Hb. eexists. by apply dynamic_programming_walk.
  - intros Hfin. eexists. by apply greedy_algorithm_Ok.
  - intros rd rg Hd Hg.
    pose proof (greedy_algorithm_inv _ _ _ Hg) as Hfin.
    rewrite greedy_algorithm_Ok in Hg by done. injection Hg as <-.
    destruct (decide (0 <= budget)) as [Hb|Hb].
    + rewrite dynamic_programming_walk in Hd by done. injection Hd as <-.
      cbn [result_of total_calories].
      rewrite sum_of_reverse, walk_calories.
      apply knapsack_submseteq; [by apply Forall_reverse | |].
      * rewrite reverse_Permutation. apply greedy_sel_submseteq.
      * pose proof (pack_sel_cost budget 0
          (sort_scored (score <$> filter (fun kv => 0 < cost kv.2) food_items))).
        lia.
    + apply negative_budget_result in Hd as [-> ->]; [done | lia].
Qed.

Lemma dynamic_programming_dominates_witness :
  exists rd rg,
    dynamic_programming items_table 60 = Ok rd
    /\ greedy_algorithm items_table 60 = Ok rg
    /\ total_calories rg <= total_calories rd.
Proof.
  destruct (dynamic_programming_dominates items_table 60)
    as (Hd & Hg & Hle).
  - by_compute.
  - by_compute.
  - destruct Hd as [rd Hd]; [lia|].
    destruct Hg as [rg Hg]; [by vm_compute|].
    exists rd, rg. repeat split; [done | done | by apply Hle].
Defined.

(** C3 (amended). For every non-negative budget, the
    result of [greedy_algorithm], which exists whenever every ratio is
    a float, and the result of [dynamic_programming], which exists on
    every dictionary of dishes of non-negative cost, have
    [total_cost <= budget]. *)
Theorem total_cost_within_budget (food_items : food_dict) (budget : Z) :
  0 <= budget ->
  (ratios_finite food_items = true ->
   exists r, greedy_algorithm food_items budget = Ok r
             /\ total_cost r <= budget)
  /\ (dict_ok food_items ->
      Forall (fun kv => 0 <= cost kv.2) food_items ->
      exists r, dynamic_programming food_items budget = Ok r
                /\ total_cost r <= budget).
Proof.
  intros Hb. split.
  - intros Hfin. eexists. split; [by apply greedy_algorithm_Ok|].
    cbn [result_of total_cost].
    pose proof (pack_sel_cost budget 0
      (sort_scored (score <$> filter (fun kv => 0 < cost kv.2) food_items))).
    lia.
  - intros Hok Hcost. eexists. split; [by apply dynamic_programming_walk|].
    cbn [result_of total_cost]. rewrite sum_of_reverse. by apply walk_cost.
Qed.

Lemma total_cost_within_budget_witness :
  (exists r, greedy_algorithm items_table 60 = Ok r /\ total_cost r <= 60)
  /\ (exists r, dynamic_programming items_table 60 = Ok r
                /\ total_cost r <= 60).
Proof.
  destruct (total_cost_within_budget items_table 60) as [Hg Hd]; [lia|].
  split.
  - apply Hg. by vm_compute.
  - apply Hd; by_compute.
Defined.

(** C3 (as stated) fails: on a dish whose ratio is beyond the largest
    float the first loop of [greedy_algorithm] raises OverflowError and
    no result is returned. *)
Lemma total_cost_within_budget_overflow :
  ~ (exists r, greedy_algorithm heavy_dish 0 = Ok r /\ total_cost r <= 0).
Proof. intros (r & Hr & _). vm_compute in Hr. discriminate. Qed.

(** C4 (amended). Below budget zero [dynamic_programming] has no budget
    check of its own. Down to budget [-2^63 - 1] both tables are
    allocated without cells, and on every non-empty dictionary the run
    ends in the IndexError of a read of a table, no result being
    returned; on the empty dictionary it returns the empty result.
    Below [-2^63 - 1] the allocation [[0] * (budget + 1)] itself raises
    OverflowError, on every dictionary. *)
Theorem dynamic_programming_negative_budget (food_items : food_dict)
    (budget : Z) :
  budget < 0 ->
  (- 2 ^ 63 - 1 <= budget ->
   (food_items <> [] ->
    dynamic_programming food_items budget = Raise IndexError)
   /\ (food_items = [] ->
       dynamic_programming food_items budget = Ok (result_of [])))
  /\ (budget < - 2 ^ 63 - 1 ->
      dynamic_programming food_items budget = Raise OverflowError).
Proof.
  intros Hb. split.
  - intros Hlow. split.
    + intros Hne. by apply negative_budget_raises.
    + intros ->. by apply dynamic_programming_nil.
  - apply dynamic_programming_below_range.
Qed.

Lemma dynamic_programming_negative_budget_witness :
  dynamic_programming items_table (-1) = Raise IndexError
  /\ dynamic_programming items_table (- 2 ^ 63 - 2) = Raise OverflowError.
Proof.
  destruct (dynamic_programming_negative_budget items_table (-1)) as [H _];
    [lia|].
  destruct (dynamic_programming_negative_budget items_table (- 2 ^ 63 - 2))
    as [_ H']; [lia|].
  split; [by apply H; [lia|] | apply H'; lia].
Defined.

(** C4 (as stated) fails: with budget [-1] and the empty dictionary
    [dynamic_programming] raises nothing. *)
Lemma dynamic_programming_negative_budget_returns :
  ~ (exists e, dynamic_programming [] (-1) = Raise e).
Proof. intros [e He]. vm_compute in He. discriminate. Qed.

(** C5 (amended). [dynamic_programming] lists the chosen names in the
    order of the dictionary; [greedy_algorithm] lists them in the order
    of its sorted list [scored], largest ratio first. *)
Theorem items_order (food_items : food_dict) (budget : Z) :
  0 <= budget ->
  (dict_ok food_items ->
   Forall (fun kv => 0 <= cost kv.2) food_items ->
   exists r, dynamic_programming food_items budget = Ok r
             /\ items r `sublist_of` food_items.*1)
  /\ (ratios_finite food_items = true ->
      exists r scored,
        build_scored food_items = Ok scored
        /\ greedy_algorithm food_items budget = Ok r
        /\ ratio_desc (sort_scored scored)
        /\ items r `sublist_of` (entry_name <$> sort_scored scored)).
Proof.
  intros Hb. split.
  - intros Hok Hcost. eexists. split; [by apply dynamic_programming_walk|].
    rewrite items_result_of. apply fmap_sublist, walk_reverse_sublist.
  - intros Hfin. eexists _, _.
    split; [by apply build_scored_Ok|].
    split; [by apply greedy_algorithm_Ok|].
    split; [apply sort_scored_sorted|].
    rewrite items_result_of, <- list_fmap_compose.
    apply fmap_sublist, pack_sel_sublist.
Qed.

Lemma items_order_witness :
  (exists r, dynamic_programming items_table 60 = Ok r
             /\ items r `sublist_of` items_table.*1)
  /\ (exists r scored,
        build_scored items_table = Ok scored
        /\ greedy_algorithm items_table 60 = Ok r
        /\ ratio_desc (sort_scored scored)
        /\ items r `sublist_of` (entry_name <$> sort_scored scored)).
Proof.
  destruct (items_order items_table 60) as [Hd Hg]; [lia|].
  split.
  - apply Hd; by_compute.
  - apply Hg. by vm_compute.
Defined.

(** C5 (as stated) fails: with budget 60 [greedy_algorithm] returns
    cola, potato, pepsi, the order of their ratios, while the dictionary
    has pepsi before cola before potato. *)
Lemma items_order_greedy_not_insertion :
  greedy_algorithm items_table 60
  = Ok {| items := ["cola"; "potato"; "pepsi"]%string;
          total_cost := 50; total_calories := 670 |}
  /\ ~ (["cola"; "potato"; "pepsi"]%string `sublist_of` items_table.*1).
Proof.
  split; [by vm_compute|].
  intros H. cbn in H.
  repeat match goal with
         | H : _ `sublist_of` _ |- _ => inversion H; clear H; subst
         end.
Qed.

(** C6 (amended). When the budget is at least the sum of all costs (all
    costs and calories being non-negative), [greedy_algorithm] returns
    exactly the dishes of positive cost, so its [total_cost] is the sum
    of all costs and its [total_calories] the calories of these dishes;
    [dynamic_programming] returns exactly the dishes of positive
    calories, in the order of the dictionary, so its [total_calories]
    is the sum of all calories and its [total_cost] the cost of these
    dishes. These are all the dishes when every cost, respectively every
    calorie count, is positive. *)
Theorem full_budget (food_items : food_dict) (budget : Z) :
  dict_ok food_items ->
  Forall (fun kv => 0 <= cost kv.2 /\ 0 <= calories kv.2) food_items ->
  sum_of cost food_items <= budget ->
  (ratios_finite food_items = true ->
   exists r,
     greedy_algorithm food_items budget = Ok r
     /\ items r ≡ₚ (filter (fun kv => 0 < cost kv.2) food_items).*1
     /\ total_cost r = sum_of cost food_items
     /\ total_calories r
        = sum_of calories (filter (fun kv => 0 < cost kv.2) food_items))
  /\ (exists r,
       dynamic_programming food_items budget = Ok r
       /\ items r = (filter (fun kv => 0 < calories kv.2) food_items).*1
       /\ total_cost r
          = sum_of cost (filter (fun kv => 0 < calories kv.2) food_items)
       /\ total_calories r = sum_of calories food_items)
  /\ (Forall (fun kv => 0 < cost kv.2) food_items ->
      filter (fun kv => 0 < cost kv.2) food_items = food_items)
  /\ (Forall (fun kv => 0 < calories kv.2) food_items ->
      filter (fun kv => 0 < calories kv.2) food_items = food_items).
Proof.
  intros Hok Hpos Hfit.
  assert (Hcost : Forall (fun kv => 0 <= cost kv.2) food_items)
    by (apply (Forall_impl _ _ _ Hpos); by intros ? []).
  assert (Hcal : Forall (fun kv => 0 <= calories kv.2) food_items)
    by (apply (Forall_impl _ _ _ Hpos); by intros ? []).
  pose proof (sum_of_nonneg cost food_items Hcost) as Hsum.
  split; [|split; [|split; apply filter_all]].
  - intros Hfin. eexists. split; [by apply greedy_algorithm_Ok|].
    set (sorted := sort_scored
           (score <$> filter (fun kv => 0 < cost kv.2) food_items)).
    assert (Hall : pack_sel budget 0 sorted = sorted).
    { apply pack_sel_all.
      - eapply Forall_impl; [apply scored_costs_positive|].
        intros e He. cbn in He. lia.
      - unfold sorted.
        rewrite (sum_of_perm _ _ _ (sorted_dishes _)), sum_of_cost_positive
          by done.
        lia. }
    rewrite Hall. unfold sorted. cbn [result_of items total_cost total_calories].
    rewrite !(sum_of_perm _ _ _ (sorted_dishes _)), sum_of_cost_positive
      by done.
    by rewrite sorted_dishes.
  - eexists. split; [apply dynamic_programming_walk; [done | lia | done]|].
    destruct (walk_full (reverse food_items)) with (w := budget) as [_ Hw].
    { by apply Forall_reverse. }
    { by rewrite sum_of_reverse. }
    rewrite Hw, filter_reverse, reverse_involutive.
    cbn [result_of items total_cost total_calories].
    by rewrite sum_of_calories_positive.
Qed.

Lemma full_budget_witness :
  (exists r,
     greedy_algorithm items_table 1000 = Ok r
     /\ items r ≡ₚ items_table.*1
     /\ total_cost r = sum_of cost items_table
     /\ total_calories r = sum_of calories items_table)
  /\ exists r,
       dynamic_programming items_table 1000 = Ok r
       /\ items r = items_table.*1
       /\ total_cost r = sum_of cost items_table
       /\ total_calories r = sum_of calories items_table.
Proof.
  destruct (full_budget items_table 1000) as (Hg & Hd & Hpaid & Hfed).
  - by_compute.
  - by_compute.
  - vm_compute. discriminate.
  - rewrite Hpaid in Hg by by_compute.
    rewrite Hfed in Hd by by_compute.
    split; [apply Hg; by vm_compute | exact Hd].
Defined.

(** C6 (as stated) fails twice: [greedy_algorithm] leaves out a free
    dish, and [dynamic_programming] leaves out a dish without calories,
    whatever the budget. *)
Lemma full_budget_not_everything :
  greedy_algorithm free_dish 0 = Ok (result_of [])
  /\ dynamic_programming empty_dish 1 = Ok (result_of []).
Proof. split; by vm_compute. Qed.

(** C7 (amended). With budget zero [greedy_algorithm] returns the empty
    result, and [dynamic_programming] returns exactly the free dishes
    that have calories, at total cost zero: the empty result when there
    is none. On the empty dictionary both return the empty result for
    every budget that is not negative. [greedy_algorithm] returns
    whenever every ratio is a float. *)
Theorem zero_budget_or_empty (food_items : food_dict) (budget : Z) :
  (budget = 0 ->
   (ratios_finite food_items = true ->
    greedy_algorithm food_items budget = Ok (result_of []))
   /\ (dict_ok food_items ->
       Forall (fun kv => 0 <= cost kv.2) food_items ->
       exists r,
         dynamic_programming food_items budget = Ok r
         /\ items r
            = (filter (fun kv => cost kv.2 = 0 /\ 0 < calories kv.2)
                 food_items).*1
         /\ total_cost r = 0
         /\ total_calories r
            = sum_of calories
                (filter (fun kv => cost kv.2 = 0 /\ 0 < calories kv.2)
                   food_items)))
  /\ (food_items = [] -> 0 <= budget ->
      greedy_algorithm food_items budget = Ok (result_of [])
      /\ dynamic_programming food_items budget = Ok (result_of [])).
Proof.
  split.
  - intros ->. split.
    + intros Hfin. rewrite greedy_algorithm_Ok by done.
      rewrite pack_sel_none; [done | apply scored_costs_positive | lia].
    + intros Hok Hcost. eexists.
      split; [by apply dynamic_programming_walk|].
      rewrite walk_zero by (by apply Forall_reverse).
      rewrite filter_reverse, reverse_involutive.
      cbn [result_of items total_cost total_calories].
      by rewrite sum_of_cost_free.
  - intros -> Hb. split; [done | apply dynamic_programming_nil; lia].
Qed.

Lemma zero_budget_or_empty_witness :
  greedy_algorithm items_table 0 = Ok (result_of [])
  /\ dynamic_programming items_table 0 = Ok (result_of [])
  /\ greedy_algorithm [] 7 = Ok (result_of [])
  /\ dynamic_programming [] 7 = Ok (result_of []).
Proof.
  destruct (proj1 (zero_budget_or_empty items_table 0) eq_refl) as [Hg Hd].
  destruct (proj2 (zero_budget_or_empty [] 7) eq_refl) as [Heg Hed]; [lia|].
  assert (Hok : dict_ok items_table)
    by by_compute.
  assert (Hcost : Forall (fun kv => 0 <= cost kv.2) items_table)
    by by_compute.
  destruct (Hd Hok Hcost) as (r & Hr & _).
  split; [apply Hg; by vm_compute|].
  split; [rewrite Hr; by vm_compute in Hr|].
  by split.
Defined.

(** C7 (as stated) fails: with budget zero [dynamic_programming] takes
    a free dish that has calories. *)
Lemma zero_budget_free_dish :
  dynamic_programming free_dish 0
  = Ok {| items := ["water"%string]; total_cost := 0; total_calories := 5 |}.
Proof. by vm_compute. Qed.

(** C8. In [greedy_algorithm] the entries of [scored] are sorted by
    ratio, largest first, and the entries whose ratio is exactly [p / q]
    stand in the sorted list, which the packing loop walks, in the order
    of the dictionary. *)
Theorem ties_keep_insertion_order (food_items : food_dict) (budget : Z)
    (scored : list scored_entry) (p q : Z) :
  0 < q ->
  build_scored food_items = Ok scored ->
  greedy_algorithm food_items budget = Ok (pack budget (sort_scored scored))
  /\ ratio_desc (sort_scored scored)
  /\ filter (ratio_is p q) (sort_scored scored)
     = score <$> filter (fun kv => 0 < cost kv.2
                                   /\ calories kv.2 * q = p * cost kv.2)
                   food_items.
Proof.
  intros Hq Hs. split; [|split].
  - unfold greedy_algorithm. by rewrite Hs.
  - apply sort_scored_sorted.
  - apply build_scored_inv in Hs as [_ ->].
    rewrite (sort_scored_stable (ratio_is p q)
               match Float.truediv p q with
               | Ok ratio => ratio
               | Raise _ => inject_Z 0
               end).
    + rewrite filter_fmap_score, list_filter_filter. f_equal.
      apply list_filter_iff. intros [name x]. unfold ratio_is. cbn. tauto.
    + intros e He Hpq. apply list_elem_of_fmap in He as (kv & -> & Hkv).
      apply list_elem_of_filter in Hkv as [Hc _].
      unfold ratio_is in Hpq. cbn in Hpq. unfold entry_ratio, score. cbn [snd].
      by rewrite (truediv_scale (calories kv.2) (cost kv.2) p q).
Qed.

Lemma ties_keep_insertion_order_witness :
  greedy_algorithm tied_dishes 4
  = Ok (pack 4 (sort_scored (score <$> tied_dishes)))
  /\ ratio_desc (sort_scored (score <$> tied_dishes))
  /\ filter (ratio_is 2 1) (sort_scored (score <$> tied_dishes))
     = score <$> filter (fun kv => 0 < cost kv.2
                                   /\ calories kv.2 * 1 = 2 * cost kv.2)
                   tied_dishes.
Proof.
  apply ties_keep_insertion_order; [lia | by vm_compute].
Defined.

(** C9 (amended). On every dictionary, dishes of cost zero or below
    included, and every budget, [greedy_algorithm] skips each dish with
    [cost <= 0] and so never divides by zero; the only exception it can
    raise is the OverflowError of [calories / cost], and it returns
    whenever every ratio is a float, as is the case when all calories
    are below [2^1023] in absolute value. *)
Theorem greedy_algorithm_errors (food_items : food_dict) (budget : Z) :
  (forall e, greedy_algorithm food_items budget = Raise e -> e = OverflowError)
  /\ (ratios_finite food_items = true ->
      exists scored,
        build_scored food_items = Ok scored
        /\ entry_dish <$> scored = filter (fun kv => 0 < cost kv.2) food_items
        /\ greedy_algorithm food_items budget
           = Ok (pack budget (sort_scored scored)))
  /\ (Forall (fun kv => Z.abs (calories kv.2) < 2 ^ 1023) food_items ->
      ratios_finite food_items = true).
Proof.
  split; [|split].
  - intros e. unfold greedy_algorithm.
    destruct (build_scored food_items) as [scored|e'] eqn:Hs; [done|].
    step_bind. intros [= <-]. by eapply build_from_Raise.
  - intros Hfin. eexists. split; [by apply build_scored_Ok|].
    split; [apply entry_dish_scored|].
    unfold greedy_algorithm. by rewrite build_scored_Ok.
  - apply ratios_finite_bounded.
Qed.

Lemma greedy_algorithm_errors_witness :
  OverflowError = OverflowError
  /\ exists scored,
       build_scored odd_dishes = Ok scored
       /\ entry_dish <$> scored = filter (fun kv => 0 < cost kv.2) odd_dishes
       /\ greedy_algorithm odd_dishes 60 = Ok (pack 60 (sort_scored scored)).
Proof.
  destruct (greedy_algorithm_errors heavy_dish 60) as (Hraise & _ & _).
  destruct (greedy_algorithm_errors odd_dishes 60) as (_ & Hret & Hfin).
  split.
  - apply Hraise. by vm_compute.
  - apply Hret, Hfin. by_compute.
Defined.

(** C9 (as stated) fails: a ratio beyond the largest float makes
    [calories / cost] raise OverflowError. *)
Lemma greedy_algorithm_overflow :
  greedy_algorithm heavy_dish 60 = Raise OverflowError.
Proof. by vm_compute. Qed.

(** C10 (amended). With a negative budget [greedy_algorithm] returns the
    empty result, totals zero, whenever every ratio is a float. *)
Theorem greedy_negative_budget (food_items : food_dict) (budget : Z) :
  budget < 0 ->
  ratios_finite food_items = true ->
  greedy_algorithm food_items budget = Ok (result_of []).
Proof.
  intros Hb Hfin. rewrite greedy_algorithm_Ok by done.
  rewrite pack_sel_none; [done | apply scored_costs_positive | lia].
Qed.

Lemma greedy_negative_budget_witness :
  greedy_algorithm items_table (-1) = Ok (result_of []).
Proof.
  apply greedy_negative_budget; [lia | by vm_compute].
Defined.

(** C10 (as stated) fails: with budget [-1] and a ratio beyond the
    largest float [greedy_algorithm] raises OverflowError. *)
Lemma greedy_negative_budget_overflow :
  greedy_algorithm heavy_dish (-1) = Raise OverflowError.
Proof. by vm_compute. Qed.

(** * Further properties of the script *)

(** ** More on the recurrence *)

Lemma knapsack_cons_max x rest w :
  knapsack (x :: rest) w =
  if cost x <=? w
  then Z.max (knapsack rest w) (knapsack rest (w - cost x) + calories x)
  else knapsack rest w.
Proof.
  rewrite knapsack_cons. unfold kept. destruct (cost x <=? w); cbn [andb]; [|done].
  destruct (Z.gtb_spec (knapsack rest (w - cost x) + calories x)
              (knapsack rest w)); lia.
Qed.

(** More budget never gives less. *)
Lemma knapsack_mono done :
  forall w w', w <= w' -> knapsack done w <= knapsack done w'.
Proof.
  induction done as [|x rest IH]; intros w w' Hw; [done|].
  rewrite !knapsack_cons_max.
  destruct (Z.leb_spec (cost x) w), (Z.leb_spec (cost x) w'); try lia.
  - pose proof (IH w w' Hw). pose proof (IH (w - cost x) (w' - cost x)). lia.
  - pose proof (IH w w' Hw). lia.
  - by apply IH.
Qed.

(** A dish the backward pass collects fits the cursor and, costs being
    non-negative, has calories. *)
Lemma walk_worth done :
  Forall (fun kv => 0 <= cost kv.2) done ->
  forall w,
    Forall (fun kv => cost kv.2 <= w /\ 0 < calories kv.2) (walk done w).
Proof.
  induction 1 as [|kv rest Hc _ IH]; intros w; [constructor|].
  cbn [walk]. destruct (kept kv.2 rest.*2 w) eqn:Hk; [|apply IH].
  unfold kept in Hk. apply andb_true_iff in Hk as [Hle%Z.leb_le Hgt].
  apply Z.gtb_lt in Hgt.
  pose proof (knapsack_mono rest.*2 (w - cost kv.2) w ltac:(lia)).
  constructor; [lia|].
  eapply Forall_impl; [apply (IH (w - cost kv.2))|].
  intros kv' [? ?]. cbn in *. lia.
Qed.

(** No dish is collected when each costs more than the cursor. *)
Lemma walk_none done w :
  Forall (fun kv => w < cost kv.2) done -> walk done w = [].
Proof.
  induction 1 as [|kv rest Hc _ IH]; [done|].
  cbn [walk]. by rewrite kept_below.
Qed.

(** [dp[w]] is the largest calorie sum a choice within [w] has. *)
Lemma knapsack_max_calories (food_items : food_dict) w :
  Forall (fun kv => 0 <= cost kv.2) food_items -> 0 <= w ->
  max_calories food_items w (knapsack (reverse food_items).*2 w).
Proof.
  intros Hcost Hw. rewrite <- walk_calories, <- sum_of_reverse. split.
  - exists (reverse (walk (reverse food_items) w)).
    repeat split; [apply walk_reverse_sublist|].
    rewrite sum_of_reverse. by apply walk_cost.
  - intros s [Hs Hfit]. rewrite sum_of_reverse, walk_calories.
    apply knapsack_submseteq; [by apply Forall_reverse | | done].
    rewrite reverse_Permutation. by apply sublist_submseteq.
Qed.

Lemma pack_sel_skips budget tc l :
  Forall (fun e => budget < tc + entry_cost e) l -> pack_sel budget tc l = [].
Proof.
  induction 1 as [|x l Hx _ IH]; [done|].
  cbn [pack_sel]. by destruct (Z.leb_spec (tc + entry_cost x) budget); [lia|].
Qed.

(** An entry the second loop leaves does not fit beside what it took. *)
Lemma pack_sel_saturated budget l :
  Forall (fun e => 0 <= entry_cost e) l ->
  forall tc e,
    e ∈ l -> e ∉ pack_sel budget tc l ->
    budget < tc + sum_of cost (entry_dish <$> pack_sel budget tc l)
             + entry_cost e.
Proof.
  induction 1 as [|y l Hy Hpos IH]; intros tc e Hin Hout.
  - by apply elem_of_nil in Hin.
  - cbn [pack_sel] in *.
    assert (Hsum : forall tc', 0 <= sum_of cost (entry_dish <$> pack_sel budget tc' l)).
    { intros tc'. apply sum_of_nonneg, Forall_fmap.
      eapply Forall_impl.
      - eapply Forall_forall. intros z Hz.
        eapply Forall_forall in Hpos; [exact Hpos|].
        by eapply elem_of_sublist, pack_sel_sublist.
      - done. }
    destruct (Z.leb_spec (tc + entry_cost y) budget) as [Hfit|Hfit].
    + apply not_elem_of_cons in Hout as [Hne Hout].
      apply elem_of_cons in Hin as [->|Hin]; [done|].
      rewrite fmap_cons, sum_of_cons. cbn [entry_dish snd cost].
      specialize (IH (tc + entry_cost y) e Hin Hout). lia.
    + apply elem_of_cons in Hin as [->|Hin].
      * specialize (Hsum tc). lia.
      * by apply IH.
Qed.

Lemma greedy_result_inv (food_items : food_dict) budget r :
  greedy_algorithm food_items budget = Ok r ->
  r = result_of
        (entry_dish <$>
           pack_sel budget 0
             (sort_scored
                (score <$> filter (fun kv => 0 < cost kv.2) food_items))).
Proof.
  intros Hr. pose proof (greedy_algorithm_inv _ _ _ Hr) as Hfin.
  rewrite greedy_algorithm_Ok in Hr by done. congruence.
Qed.

(** X1. Whenever [greedy_algorithm] returns, the totals it accumulated
    are the sums of cost and calories looked up again in the
    dictionary over the returned names. *)
Theorem greedy_totals_recomputed (food_items : food_dict) (budget : Z) r :
  dict_ok food_items ->
  greedy_algorithm food_items budget = Ok r ->
  sum_over food_items cost (items r) = Ok (total_cost r)
  /\ sum_over food_items calories (items r) = Ok (total_calories r).
Proof.
  intros Hok Hr. apply greedy_result_inv in Hr as ->.
  cbn [result_of items total_cost total_calories].
  assert (Hsub : entry_dish <$>
            pack_sel budget 0
              (sort_scored
                 (score <$> filter (fun kv => 0 < cost kv.2) food_items))
            ⊆ food_items).
  { intros kv Hkv. eapply elem_of_submseteq; [done|].
    apply greedy_sel_submseteq. }
  by rewrite !sum_over_names.
Qed.

Lemma greedy_totals_recomputed_witness :
  sum_over items_table cost ["cola"; "potato"; "pepsi"]%string = Ok 50
  /\ sum_over items_table calories ["cola"; "potato"; "pepsi"]%string = Ok 670.
Proof.
  apply (greedy_totals_recomputed items_table 60
           {| items := ["cola"; "potato"; "pepsi"]%string;
              total_cost := 50; total_calories := 670 |}).
  - by_compute.
  - by vm_compute.
Defined.

(** The names [greedy_algorithm] returns are keys of the dictionary,
    each as often as the dictionary has it. *)
Lemma greedy_items_submseteq (food_items : food_dict) budget r :
  greedy_algorithm food_items budget = Ok r -> items r ⊆+ food_items.*1.
Proof.
  intros Hr. apply greedy_result_inv in Hr as ->. rewrite items_result_of.
  apply fmap_submseteq, greedy_sel_submseteq.
Qed.

(** The names [dynamic_programming] returns are keys of the dictionary,
    in its order. *)
Lemma dynamic_programming_items_sublist (food_items : food_dict) budget r :
  dict_ok food_items ->
  Forall (fun kv => 0 <= cost kv.2) food_items ->
  dynamic_programming food_items budget = Ok r ->
  items r `sublist_of` food_items.*1.
Proof.
  intros Hok Hcost Hr. destruct (decide (0 <= budget)) as [Hb|Hb].
  - rewrite dynamic_programming_walk in Hr by done. injection Hr as <-.
    rewrite items_result_of. apply (fmap_sublist fst), walk_reverse_sublist.
  - apply negative_budget_result in Hr as [-> ->]; [done | lia].
Qed.

(** X2. Both selectors take each dish at most once: the returned names
    are keys of the dictionary and none is repeated. *)
Theorem selected_at_most_once (food_items : food_dict) (budget : Z) :
  dict_ok food_items ->
  (forall r, greedy_algorithm food_items budget = Ok r ->
             NoDup (items r) /\ items r ⊆ food_items.*1)
  /\ (Forall (fun kv => 0 <= cost kv.2) food_items ->
      forall r, dynamic_programming food_items budget = Ok r ->
                NoDup (items r) /\ items r ⊆ food_items.*1).
Proof.
  intros Hok. split.
  - intros r Hr. pose proof (greedy_items_submseteq _ _ _ Hr) as Hsub.
    split.
    + apply submseteq_Permutation in Hsub as [k Hk].
      unfold dict_ok in Hok. rewrite Hk in Hok.
      by apply NoDup_app in Hok as [? _].
    + intros name Hname. by eapply elem_of_submseteq.
  - intros Hcost r Hr.
    pose proof (dynamic_programming_items_sublist _ _ _ Hok Hcost Hr) as Hsub.
    split; [by eapply sublist_NoDup | by apply sublist_subseteq].
Qed.

Lemma selected_at_most_once_witness :
  (NoDup ["cola"; "potato"; "pepsi"]%string
   /\ ["cola"; "potato"; "pepsi"]%string ⊆ items_table.*1)
  /\ (NoDup ["pepsi"; "cola"; "potato"]%string
      /\ ["pepsi"; "cola"; "potato"]%string ⊆ items_table.*1).
Proof.
  destruct (selected_at_most_once items_table 60) as [Hg Hd]; [by_compute|].
  split.
  - apply (Hg {| items := ["cola"; "potato"; "pepsi"]%string;
                 total_cost := 50; total_calories := 670 |}).
    by vm_compute.
  - apply (Hd ltac:(by_compute)
              {| items := ["pepsi"; "cola"; "potato"]%string;
                 total_cost := 50; total_calories := 670 |}).
    by vm_compute.
Defined.

(** X3. When every dish costs more than the budget, both selectors
    return the empty result. *)
Theorem budget_below_every_cost (food_items : food_dict) (budget : Z) :
  Forall (fun kv => budget < cost kv.2) food_items ->
  (ratios_finite food_items = true ->
   greedy_algorithm food_items budget = Ok (result_of []))
  /\ (dict_ok food_items -> 0 <= budget ->
      dynamic_programming food_items budget = Ok (result_of [])).
Proof.
  intros Hdear. split.
  - intros Hfin. rewrite greedy_algorithm_Ok by done.
    rewrite pack_sel_skips; [done|].
    rewrite sort_scored_perm. apply Forall_fmap, Forall_forall.
    intros kv Hkv. apply list_elem_of_filter in Hkv as [_ Hkv].
    rewrite Forall_forall in Hdear. specialize (Hdear kv Hkv). cbn. lia.
  - intros Hok Hb. rewrite dynamic_programming_walk; [|done|done|].
    + rewrite walk_none; [done|]. by apply Forall_reverse.
    + eapply Forall_impl; [done|]. intros kv Hkv. cbn in Hkv. lia.
Qed.

Lemma budget_below_every_cost_witness :
  greedy_algorithm items_table 5 = Ok (result_of [])
  /\ dynamic_programming items_table 5 = Ok (result_of []).
Proof.
  destruct (budget_below_every_cost items_table 5) as [Hg Hd]; [by_compute|].
  split; [apply Hg; by vm_compute | apply Hd; [by_compute | lia]].
Defined.

(** X4. The result of [greedy_algorithm] cannot be extended: a dish of
    positive cost that it did not take does not fit in what is left of
    the budget. *)
Theorem greedy_leaves_nothing_that_fits (food_items : food_dict) (budget : Z)
    r name x :
  greedy_algorithm food_items budget = Ok r ->
  (name, x) ∈ food_items -> 0 < cost x -> name ∉ items r ->
  budget < total_cost r + cost x.
Proof.
  intros Hr Hin Hc Hout. apply greedy_result_inv in Hr as ->.
  rewrite items_result_of, <- list_fmap_compose in Hout.
  cbn [result_of total_cost].
  set (sorted := sort_scored
         (score <$> filter (fun kv => 0 < cost kv.2) food_items)) in *.
  pose proof (pack_sel_saturated budget sorted) as Hsat.
  specialize (Hsat ltac:(eapply Forall_impl; [apply scored_costs_positive|];
                         intros e He; cbn in He; lia)
                0 (score (name, x))).
  cbn in Hsat. apply Hsat.
  - unfold sorted. rewrite sort_scored_perm. apply list_elem_of_fmap_2.
    by apply list_elem_of_filter.
  - intros Hsel. apply Hout.
    by apply (list_elem_of_fmap_2 (fst ∘ entry_dish)) in Hsel.
Qed.

Lemma greedy_leaves_nothing_that_fits_witness : 60 < 50 + 30.
Proof.
  apply (greedy_leaves_nothing_that_fits items_table 60
           {| items := ["cola"; "potato"; "pepsi"]%string;
              total_cost := 50; total_calories := 670 |}
           "hot-dog"%string {| cost := 30; calories := 200 |}).
  - by vm_compute.
  - by_compute.
  - cbn. lia.
  - by_compute.
Defined.

(** X5. Every dish [dynamic_programming] returns costs at most the
    budget and has calories: a dish without calories never improves
    [dp[w]] strictly and is left out. *)
Theorem dynamic_programming_takes_calories (food_items : food_dict)
    (budget : Z) r name :
  dict_ok food_items ->
  Forall (fun kv => 0 <= cost kv.2) food_items ->
  dynamic_programming food_items budget = Ok r ->
  name ∈ items r ->
  exists x, (name, x) ∈ food_items /\ cost x <= budget /\ 0 < calories x.
Proof.
  intros Hok Hcost Hr Hname.
  destruct (decide (0 <= budget)) as [Hb|Hb].
  - rewrite dynamic_programming_walk in Hr by done. injection Hr as <-.
    rewrite items_result_of in Hname.
    apply list_elem_of_fmap in Hname as ([name' x] & -> & Hkv).
    exists x. split.
    + by eapply elem_of_sublist, walk_reverse_sublist.
    + rewrite elem_of_reverse in Hkv.
      pose proof (walk_worth (reverse food_items)
                    ltac:(by apply Forall_reverse) budget) as Hw.
      rewrite Forall_forall in Hw. apply (Hw _ Hkv).
  - apply negative_budget_result in Hr as [-> ->]; [|lia].
    by apply elem_of_nil in Hname.
Qed.

Lemma dynamic_programming_takes_calories_witness :
  exists x, ("cola"%string, x) ∈ items_table /\ cost x <= 60 /\ 0 < calories x.
Proof.
  apply (dynamic_programming_takes_calories items_table 60
           {| items := ["pepsi"; "cola"; "potato"]%string;
              total_cost := 50; total_calories := 670 |}).
  - by_compute.
  - by_compute.
  - by vm_compute.
  - by_compute.
Defined.

(** X6. More budget never lowers the [total_calories] of
    [dynamic_programming]. *)
Theorem dynamic_programming_monotone (food_items : food_dict)
    (budget budget' : Z) :
  dict_ok food_items ->
  Forall (fun kv => 0 <= cost kv.2) food_items ->
  0 <= budget <= budget' ->
  exists r r',
    dynamic_programming food_items budget = Ok r
    /\ dynamic_programming food_items budget' = Ok r'
    /\ total_calories r <= total_calories r'.
Proof.
  intros Hok Hcost Hb. eexists _, _.
  split; [apply dynamic_programming_walk; (done || lia)|].
  split; [apply dynamic_programming_walk; (done || lia)|].
  cbn [result_of total_calories]. rewrite !sum_of_reverse, !walk_calories.
  apply knapsack_mono. lia.
Qed.

Lemma dynamic_programming_monotone_witness :
  exists r r',
    dynamic_programming items_table 60 = Ok r
    /\ dynamic_programming items_table 100 = Ok r'
    /\ total_calories r <= total_calories r'.
Proof.
  apply dynamic_programming_monotone; [by_compute | by_compute | lia].
Defined.

(** X7. The [total_calories] of [dynamic_programming] does not depend
    on the order of the dictionary. *)
Theorem dynamic_programming_order_free (food_items food_items' : food_dict)
    (budget : Z) :
  dict_ok food_items ->
  Forall (fun kv => 0 <= cost kv.2) food_items ->
  0 <= budget ->
  food_items ≡ₚ food_items' ->
  exists r r',
    dynamic_programming food_items budget = Ok r
    /\ dynamic_programming food_items' budget = Ok r'
    /\ total_calories r = total_calories r'.
Proof.
  intros Hok Hcost Hb Hperm.
  assert (Hok' : dict_ok food_items') by (unfold dict_ok; by rewrite <- Hperm).
  assert (Hcost' : Forall (fun kv => 0 <= cost kv.2) food_items')
    by (by rewrite <- Hperm).
  eexists _, _.
  split; [by apply dynamic_programming_walk|].
  split; [by apply dynamic_programming_walk|].
  cbn [result_of total_calories]. rewrite !sum_of_reverse.
  apply Z.le_antisymm.
  - rewrite (walk_calories (reverse food_items')).
    apply knapsack_submseteq; [by apply Forall_reverse | |].
    + etrans; [apply sublist_submseteq, walk_sublist|].
      apply Permutation_submseteq. by rewrite !reverse_Permutation.
    + by apply walk_cost.
  - rewrite (walk_calories (reverse food_items)).
    apply knapsack_submseteq; [by apply Forall_reverse | |].
    + etrans; [apply sublist_submseteq, walk_sublist|].
      apply Permutation_submseteq. by rewrite !reverse_Permutation.
    + by apply walk_cost.
Qed.

Lemma dynamic_programming_order_free_witness :
  exists r r',
    dynamic_programming items_table 60 = Ok r
    /\ dynamic_programming (reverse items_table) 60 = Ok r'
    /\ total_calories r = total_calories r'.
Proof.
  apply dynamic_programming_order_free.
  - by_compute.
  - by_compute.
  - lia.
  - by_compute.
Defined.

(** ** Loops over a list in two parts *)

Lemma for_each_app {A S} (l1 l2 : list A) (body : A -> S -> result S) s :
  for_each (l1 ++ l2) body s = s' ← for_each l1 body s; for_each l2 body s'.
Proof.
  revert s. induction l1 as [|x l1 IH]; intros s; [done|].
  cbn [app for_each]. destruct (body x s) as [s'|e]; [|done].
  step_bind. apply IH.
Qed.

Lemma enumerate_from_app {A} (l1 l2 : list A) k :
  enumerate_from k (l1 ++ l2)
  = enumerate_from k l1 ++ enumerate_from (k + length l1) l2.
Proof.
  revert k. induction l1 as [|x l1 IH]; intros k.
  - cbn. by rewrite Nat.add_0_r.
  - cbn [app enumerate_from length]. rewrite IH. do 3 f_equal. lia.
Qed.

Lemma getitem_beyond {A} (l : list A) (i : Z) :
  Z.of_nat (length l) <= i -> getitem l i = Raise IndexError.
Proof.
  intros Hi. unfold getitem, norm_index.
  destruct (Z.leb_spec 0 i), (Z.ltb_spec i (Z.of_nat (length l))),
    (Z.leb_spec (- Z.of_nat (length l)) i), (Z.ltb_spec i 0);
    try reflexivity; lia.
Qed.

(** ** A dish of negative cost *)

(** The step of the forward pass for one dish of non-negative cost,
    whatever the other dishes cost. *)
Lemma dp_item_tables_at (food_items : food_dict) budget (k : nat) name x :
  dict_ok food_items ->
  food_items !! k = Some (name, x) -> 0 <= cost x ->
  dp_item food_items budget (Z.of_nat k, name)
    (dp_table (reverse (take k food_items.*2)) budget,
     keep_after food_items.*2 budget k)
  = Ok (dp_table (reverse (take (S k) food_items.*2)) budget,
        keep_after food_items.*2 budget (S k)).
Proof.
  intros Hok Hk Hc. unfold dp_item.
  rewrite (dict_get_elem_of _ _ x) by (done || by eapply list_elem_of_lookup_2).
  step_bind. unfold range_down.
  assert (Hx : food_items.*2 !! k = Some x) by (by rewrite list_lookup_fmap, Hk).
  set (rest := reverse (take k food_items.*2)).
  rewrite <- (dp_stage_start x rest budget).
  rewrite inner_loop_stage; [| done | lia | lia |].
  - rewrite (take_S_r _ _ x), reverse_snoc by done. fold rest.
    assert (Hlo : forall w, 0 <= w <= budget ->
              w < budget + 1 - Z.of_nat (Z.to_nat (budget - (cost x - 1))) ->
              w < cost x) by lia.
    rewrite dp_stage_end, row_stage_end by done.
    unfold rest. by rewrite keep_after_S.
  - rewrite (lookup_keep_after _ _ _ _ x) by done.
    rewrite decide_False by lia. by rewrite row_stage_start.
Qed.

(** The forward pass over a stretch of dishes of non-negative cost. *)
Lemma forward_pass_stretch (food_items : food_dict) budget :
  dict_ok food_items ->
  forall mid before after,
    food_items = before ++ mid ++ after ->
    Forall (fun kv => 0 <= cost kv.2) mid ->
    for_each (enumerate_from (length before) mid.*1)
      (dp_item food_items budget)
      (dp_table (reverse (take (length before) food_items.*2)) budget,
       keep_after food_items.*2 budget (length before))
    = Ok (dp_table
            (reverse (take (length before + length mid) food_items.*2)) budget,
          keep_after food_items.*2 budget (length before + length mid)).
Proof.
  intros Hok mid. induction mid as [|[name x] mid IH];
    intros before after Heq Hmid.
  - cbn. by rewrite Nat.add_0_r.
  - apply Forall_cons in Hmid as [Hx Hmid].
    assert (Hk : food_items !! length before = Some (name, x)).
    { rewrite Heq. by rewrite lookup_app_r, Nat.sub_diag by lia. }
    cbn [fmap list_fmap enumerate_from for_each fst].
    rewrite (dp_item_tables_at _ _ _ _ x) by done. step_bind.
    specialize (IH (before ++ [(name, x)]) after).
    rewrite length_app in IH. cbn [length] in IH.
    replace (length before + 1)%nat with (S (length before)) in IH by lia.
    rewrite IH; [| by rewrite <- app_assoc | done].
    cbn [length].
    by replace (S (length before) + length mid)%nat
      with (length before + S (length mid))%nat by lia.
Qed.

(** At a dish of negative cost the first read [dp[w - cost]] is beyond
    the end of [dp]. *)
Lemma dp_item_negative (food_items : food_dict) budget i name x done keep :
  0 <= budget -> dict_get food_items name = Ok x -> cost x < 0 ->
  dp_item food_items budget (i, name) (dp_table done budget, keep)
  = Raise IndexError.
Proof.
  intros Hb Hget Hc. unfold dp_item. rewrite Hget. step_bind.
  unfold range_down.
  destruct (Z.to_nat (budget - (cost x - 1))) as [|n] eqn:Hn; [lia|].
  cbn [count_down for_each]. unfold dp_body.
  rewrite (getitem_beyond (dp_table done budget) (budget - cost x)); [done|].
  unfold dp_table. rewrite length_fmap, length_seqZ. lia.
Qed.

Lemma first_such {A} (P : A -> Prop) `{!forall x, Decision (P x)} (l : list A) :
  Exists P l ->
  exists before x after,
    l = before ++ x :: after /\ Forall (fun y => ~ P y) before /\ P x.
Proof.
  induction l as [|y l IH]; intros Hex; [by apply Exists_nil in Hex|].
  destruct (decide (P y)) as [Hy|Hy].
  - by exists [], y, l.
  - apply Exists_cons in Hex as [?|Hex]; [done|].
    destruct (IH Hex) as (before & x & after & -> & Hbefore & Hx).
    exists (y :: before), x, after. split; [done|]. split; [|done].
    by constructor.
Qed.

(** X8. [dynamic_programming] has no guard for a negative cost: on a
    dictionary with a dish of negative cost it raises IndexError, for
    every budget from [-2^63 - 1] up, the budgets for which [dp] is
    allocated. *)
Theorem dynamic_programming_negative_cost (food_items : food_dict)
    (budget : Z) :
  dict_ok food_items ->
  Exists (fun kv => cost kv.2 < 0) food_items ->
  - 2 ^ 63 - 1 <= budget ->
  dynamic_programming food_items budget = Raise IndexError.
Proof.
  intros Hok Hneg Hlow.
  destruct (decide (0 <= budget)) as [Hb|Hb].
  2: { apply negative_budget_raises; [lia|]. intros ->.
       by apply Exists_nil in Hneg. }
  destruct (first_such _ _ Hneg) as (before & [name x] & after & Heq & Hpos & Hx).
  cbn in Hx.
  assert (Hbefore : Forall (fun kv => 0 <= cost kv.2) before).
  { eapply Forall_impl; [done|]. intros kv Hkv. cbn in Hkv. lia. }
  pose proof (forward_pass_stretch food_items budget Hok before [] ((name, x) :: after))
    as Hrun.
  cbn [length app] in Hrun. rewrite Nat.add_0_l in Hrun.
  rewrite take_0, dp_table_nil, keep_after_0 in Hrun.
  specialize (Hrun Heq Hbefore).
  rewrite dynamic_programming_in_range by done. unfold enumerate.
  rewrite Nat2Z.id, length_fmap.
  rewrite length_fmap in Hrun.
  rewrite Heq at 1. rewrite fmap_app, enumerate_from_app, for_each_app.
  cbn [Nat.add]. rewrite Hrun. step_bind.
  rewrite fmap_cons. cbn [enumerate_from for_each fst].
  rewrite length_fmap.
  rewrite (dp_item_negative _ _ _ _ x); [done | done | | done].
  apply dict_get_elem_of; [done|]. rewrite Heq.
  apply elem_of_app. right. left.
Qed.

Lemma dynamic_programming_negative_cost_witness :
  dynamic_programming odd_dishes 60 = Raise IndexError.
Proof.
  apply dynamic_programming_negative_cost; [by_compute | by_compute | lia].
Defined.

(** X9. After the first loop of [dynamic_programming], as its comment
    says, [dp[w]] is the largest calorie sum within budget [w], for
    every [w] up to the budget. *)
Theorem forward_pass_table (food_items : food_dict) (budget : Z) :
  dict_ok food_items ->
  Forall (fun kv => 0 <= cost kv.2) food_items ->
  0 <= budget ->
  exists dp keep,
    for_each (enumerate food_items.*1) (dp_item food_items budget)
      (replicate (Z.to_nat (budget + 1)) 0,
       replicate (Z.to_nat (Z.of_nat (length food_items.*1)))
         (replicate (Z.to_nat (budget + 1)) false))
    = Ok (dp, keep)
    /\ Z.of_nat (length dp) = budget + 1
    /\ forall w, 0 <= w <= budget ->
         exists m, getitem dp w = Ok m /\ max_calories food_items w m.
Proof.
  intros Hok Hcost Hb. eexists _, _. split; [by apply forward_pass|].
  split.
  - unfold dp_table. rewrite length_fmap, length_seqZ. lia.
  - intros w Hw. eexists. split.
    + apply getitem_Ok; [lia|]. unfold dp_table. by rewrite lookup_table.
    + rewrite <- fmap_reverse. apply knapsack_max_calories; [done | lia].
Qed.

Lemma forward_pass_table_witness :
  exists dp keep,
    for_each (enumerate items_table.*1) (dp_item items_table 60)
      (replicate (Z.to_nat (60 + 1)) 0,
       replicate (Z.to_nat (Z.of_nat (length items_table.*1)))
         (replicate (Z.to_nat (60 + 1)) false))
    = Ok (dp, keep)
    /\ Z.of_nat (length dp) = 60 + 1
    /\ forall w, 0 <= w <= 60 ->
         exists m, getitem dp w = Ok m /\ max_calories items_table w m.
Proof.
  apply forward_pass_table; [by_compute | by_compute | lia].
Defined.

(** ** Statements only append to standard output *)

Lemma appends_print s : appends (print s).
Proof. by intros out. Qed.

Lemma appends_lift {A} (r : result A) : appends (lift r).
Proof. intros out. unfold lift, printed. destruct r; by rewrite app_nil_r. Qed.

Lemma appends_mret {A} (a : A) : appends (mret a : io A).
Proof. intros out. unfold printed. cbn. by rewrite app_nil_r. Qed.


Lemma appends_bind {A B} (m : io A) (k : A -> io B) :
  appends m -> (forall a, appends (k a)) -> appends (m ≫= k).
Proof.
  intros Hm Hk out. unfold printed, mbind, io_bind.
  rewrite (Hm out). destruct (m []) as [out1 [a|e]] eqn:Hm0; cbn [fst snd].
  - unfold printed. rewrite Hm0. cbn [fst].
    rewrite (Hk a (out ++ out1)), (Hk a out1). cbn [fst snd].
    by rewrite app_assoc.
  - unfold printed. by rewrite Hm0.
Qed.


Lemma bind_raised {A B} (m : io A) (k : A -> io B) e out :
  appends m -> (m []).2 = Raised e ->
  (m ≫= k) out = (out ++ printed m, Raised e).
Proof.
  intros Hm Hr. unfold mbind, io_bind. rewrite (Hm out), Hr. done.
Qed.

Lemma appends_print_rows names : appends (print_rows names).
Proof.
  induction names as [|name rest IH]; [apply appends_mret|].
  cbn [print_rows]. apply appends_bind; [apply appends_lift|]. intros c.
  apply appends_bind; [apply appends_lift|]. intros d.
  apply appends_bind; [apply appends_print | done].
Qed.

Lemma appends_print_selection title r : appends (print_selection title r).
Proof.
  unfold print_selection.
  apply appends_bind; [apply appends_print|]. intros _.
  apply appends_bind; [apply appends_print|]. intros _.
  destruct (items r); [apply appends_print|].
  repeat (apply appends_bind;
          [first [apply appends_print | apply appends_print_rows]|];
          intros _).
  apply appends_print.
Qed.

Lemma appends_demo_for_budget budget : appends (demo_for_budget budget).
Proof.
  unfold demo_for_budget.
  apply appends_bind; [apply appends_print|]. intros _.
  apply appends_bind; [apply appends_lift|]. intros g.
  apply appends_bind; [apply appends_lift|]. intros d.
  apply appends_bind; [apply appends_print_selection|]. intros _.
  apply appends_bind; [apply appends_print_selection|]. intros _.
  repeat case_match; apply appends_print.
Qed.

Lemma dict_get_absent (food_items : food_dict) name :
  name ∉ food_items.*1 -> dict_get food_items name = Raise KeyError.
Proof.
  induction food_items as [|[k v] rest IH]; intros Hout; [done|].
  rewrite fmap_cons in Hout. apply not_elem_of_cons in Hout as [Hne Hout].
  cbn [dict_get fst] in *. destruct (String.eqb_spec k name); [done|].
  by apply IH.
Qed.

(** ** print_selection *)

Lemma print_rows_known names :
  Forall (fun name => name ∈ items_table.*1) names ->
  (print_rows names []).2 = Returned ().
Proof.
  induction 1 as [|name rest Hname _ IH]; [done|].
  destruct (dict_get_present items_table name Hname) as [x Hx].
  cbn [print_rows]. rewrite Hx. unfold mbind, io_bind, lift, print; cbn beta iota.
  rewrite (appends_print_rows rest). by apply IH.
Qed.

Lemma print_rows_foreign known bad rest :
  Forall (fun name => name ∈ items_table.*1) known ->
  bad ∉ items_table.*1 ->
  forall out,
    print_rows (known ++ bad :: rest) out
    = (out ++ printed (print_rows known), Raised (Exn KeyError)).
Proof.
  intros Hknown Hbad. induction Hknown as [|name known Hname _ IH]; intros out.
  - cbn [app print_rows]. unfold printed. cbn [mret io_ret fst].
    rewrite (dict_get_absent _ _ Hbad). by rewrite app_nil_r.
  - destruct (dict_get_present items_table name Hname) as [x Hx].
    unfold printed. cbn [app print_rows]. rewrite Hx.
    unfold mbind, io_bind, lift, print; cbn beta iota. rewrite IH.
    rewrite (appends_print_rows known (_ ++ _)). cbn [fst].
    by rewrite app_nil_l, <- !app_assoc.
Qed.

(** X10. [print_selection] looks every name up in the module-level
    table: at the first name that is not a key of it, it raises
    KeyError, having printed the heading, the table header and the rows
    of the names before, and nothing after. *)
Theorem print_selection_foreign_name title r known bad rest out :
  items r = known ++ bad :: rest ->
  Forall (fun name => name ∈ items_table.*1) known ->
  bad ∉ items_table.*1 ->
  print_selection title r out
  = (out ++ printed (print ([10%N] ++ title);;
                     print (dashes (length title));;
                     print table_header;;
                     print (dashes 36);;
                     print_rows known),
     Raised (Exn KeyError)).
Proof.
  intros Hitems Hknown Hbad. unfold print_selection. rewrite Hitems.
  destruct (known ++ bad :: rest) as [|name names] eqn:Heq.
  { by destruct known. }
  rewrite <- Heq. unfold printed. unfold mbind, io_bind, print; cbn beta iota.
  rewrite print_rows_foreign by done.
  rewrite (appends_print_rows known (_ ++ _)). cbn [fst app].
  f_equal. rewrite <- !app_assoc. cbn [app]. by rewrite <- !app_assoc.
Qed.

Lemma print_selection_foreign_name_witness :
  print_selection (text_of "x")
    {| items := ["pepsi"; "tea"]%string; total_cost := 12;
       total_calories := 101 |} []
  = ([] ++ printed (print ([10%N] ++ text_of "x");;
                    print (dashes (length (text_of "x")));;
                    print table_header;;
                    print (dashes 36);;
                    print_rows ["pepsi"%string]),
     Raised (Exn KeyError)).
Proof.
  apply (print_selection_foreign_name _ _ ["pepsi"%string] "tea"%string []).
  - reflexivity.
  - by_compute.
  - by_compute.
Defined.

Lemma print_selection_known title r :
  Forall (fun name => name ∈ items_table.*1) (items r) ->
  (print_selection title r []).2 = Returned ().
Proof.
  intros Hknown. unfold print_selection.
  destruct (items r) as [|name names] eqn:Hitems; [done|].
  unfold mbind, io_bind, print; cbn beta iota.
  rewrite (appends_print_rows _ (_ ++ _)), print_rows_known by done.
  done.
Qed.

(** The names either selector returns on the module-level table are
    keys of that table. *)
Lemma selector_items_known budget r :
  greedy_algorithm items_table budget = Ok r
  \/ dynamic_programming items_table budget = Ok r ->
  Forall (fun name => name ∈ items_table.*1) (items r).
Proof.
  intros Hr. apply Forall_forall. intros name Hname. destruct Hr as [Hr|Hr].
  - eapply elem_of_submseteq; [done|]. by eapply greedy_items_submseteq.
  - eapply elem_of_sublist; [done|].
    eapply dynamic_programming_items_sublist; [| |done]; by_compute.
Qed.

(** X11. A result either selector computed from the module-level table
    is always printed in full: [print_selection] returns, whatever the
    budget and the title. *)
Theorem print_selection_after_selector title budget r out :
  greedy_algorithm items_table budget = Ok r
  \/ dynamic_programming items_table budget = Ok r ->
  print_selection title r out
  = (out ++ printed (print_selection title r), Returned ()).
Proof.
  intros Hr. rewrite (appends_print_selection title r out). f_equal.
  by eapply print_selection_known, selector_items_known.
Qed.

Lemma print_selection_after_selector_witness :
  print_selection (text_of "DP")
    {| items := ["pepsi"; "cola"; "potato"]%string; total_cost := 50;
       total_calories := 670 |} []
  = ([] ++ printed (print_selection (text_of "DP")
                      {| items := ["pepsi"; "cola"; "potato"]%string;
                         total_cost := 50; total_calories := 670 |}),
     Returned ()).
Proof.
  apply (print_selection_after_selector _ 60). right. by vm_compute.
Defined.

(** ** demo_for_budget *)

(** [greedy_algorithm] never finds more than [dynamic_programming]. *)
Lemma greedy_below_dp (food_items : food_dict) budget rg rd :
  dict_ok food_items ->
  Forall (fun kv => 0 <= cost kv.2) food_items ->
  greedy_algorithm food_items budget = Ok rg ->
  dynamic_programming food_items budget = Ok rd ->
  total_calories rg <= total_calories rd.
Proof.
  intros Hok Hcost Hg Hd. apply greedy_result_inv in Hg as ->.
  destruct (decide (0 <= budget)) as [Hb|Hb].
  - rewrite dynamic_programming_walk in Hd by done. injection Hd as <-.
    cbn [result_of total_calories]. rewrite sum_of_reverse, walk_calories.
    apply knapsack_submseteq; [by apply Forall_reverse | |].
    + rewrite reverse_Permutation. apply greedy_sel_submseteq.
    + pose proof (pack_sel_cost budget 0
        (sort_scored (score <$> filter (fun kv => 0 < cost kv.2) food_items))).
      lia.
  - apply negative_budget_result in Hd as [-> ->]; [done | lia].
Qed.

Lemma items_table_ok : dict_ok items_table.
Proof. by_compute. Qed.

Lemma items_table_costs : Forall (fun kv => 0 <= cost kv.2) items_table.
Proof. by_compute. Qed.

Lemma items_table_finite : ratios_finite items_table = true.
Proof. by vm_compute. Qed.

(** The statements of [demo_for_budget] once both selectors returned. *)
Lemma demo_for_budget_run budget rg rd out :
  greedy_algorithm items_table budget = Ok rg ->
  dynamic_programming items_table budget = Ok rd ->
  demo_for_budget budget out
  = (print (demo_heading budget);;
     print_selection (text_of "Жадібний алгоритм") rg;;
     print_selection (text_of "Динамічне програмування") rd;;
     if total_calories rd - total_calories rg >? 0
     then print (dp_found_more (total_calories rd - total_calories rg))
     else print both_equal) out.
Proof.
  intros Hg Hd.
  pose proof (greedy_below_dp _ _ _ _ items_table_ok items_table_costs Hg Hd).
  unfold demo_for_budget. rewrite Hg, Hd.
  unfold mbind, io_bind, lift, print; cbn beta iota.
  destruct (print_selection _ rg _) as [out1 [[]|e]]; [|done].
  destruct (print_selection _ rd _) as [out2 [[]|e]]; [|done].
  destruct (Z.gtb_spec (total_calories rd - total_calories rg) 0); [done|].
  destruct (Z.eqb_spec (total_calories rd - total_calories rg) 0); [done|lia].
Qed.

(** X12. For a non-negative budget [demo_for_budget] returns, having
    printed the heading, both selections and a last line that says that
    [dynamic_programming] found more or that both found the same: the
    third line of the script, for more calories from
    [greedy_algorithm], is never printed. *)
Theorem demo_for_budget_verdict (budget : Z) (out : stdout) :
  0 <= budget ->
  exists rg rd,
    greedy_algorithm items_table budget = Ok rg
    /\ dynamic_programming items_table budget = Ok rd
    /\ demo_for_budget budget out
       = (out ++ printed
                   (print (demo_heading budget);;
                    print_selection (text_of "Жадібний алгоритм") rg;;
                    print_selection (text_of "Динамічне програмування") rd;;
                    if total_calories rd - total_calories rg >? 0
                    then print (dp_found_more
                                  (total_calories rd - total_calories rg))
                    else print both_equal),
          Returned ()).
Proof.
  intros Hb.
  pose proof (greedy_algorithm_Ok items_table budget items_table_finite) as Hg.
  pose proof (dynamic_programming_walk items_table budget items_table_ok Hb
                items_table_costs) as Hd.
  eexists _, _. split; [exact Hg|]. split; [exact Hd|].
  rewrite (demo_for_budget_run budget _ _ out Hg Hd).
  set (rg := result_of _) in *. set (rd := result_of (reverse _)) in *.
  set (prog := print _ ;; _).
  assert (Happ : appends prog).
  { unfold prog.
    apply appends_bind; [apply appends_print|]. intros _.
    apply appends_bind; [apply appends_print_selection|]. intros _.
    apply appends_bind; [apply appends_print_selection|]. intros _.
    case_match; apply appends_print. }
  rewrite (Happ out). f_equal. unfold prog.
  unfold mbind, io_bind, print; cbn beta iota.
  rewrite (appends_print_selection _ rg (_ ++ _)).
  rewrite (print_selection_known _ rg)
    by (eapply selector_items_known; by left).
  rewrite (appends_print_selection _ rd (_ ++ _)).
  rewrite (print_selection_known _ rd)
    by (eapply selector_items_known; by right).
  by case_match.
Qed.

Lemma demo_for_budget_verdict_witness :
  exists rg rd,
    greedy_algorithm items_table 100 = Ok rg
    /\ dynamic_programming items_table 100 = Ok rd
    /\ demo_for_budget 100 []
       = ([] ++ printed
                  (print (demo_heading 100);;
                   print_selection (text_of "Жадібний алгоритм") rg;;
                   print_selection (text_of "Динамічне програмування") rd;;
                   if total_calories rd - total_calories rg >? 0
                   then print (dp_found_more
                                 (total_calories rd - total_calories rg))
                   else print both_equal),
          Returned ()).
Proof.
  apply demo_for_budget_verdict. lia.
Defined.

(** X13. For a negative budget, down to [-2^63 - 1],
    [demo_for_budget] prints its heading and stops there with the
    IndexError of [dynamic_programming]. *)
Theorem demo_for_budget_negative (budget : Z) (out : stdout) :
  - 2 ^ 63 - 1 <= budget < 0 ->
  demo_for_budget budget out
  = (out ++ printed (print (demo_heading budget)), Raised (Exn IndexError)).
Proof.
  intros Hb. unfold demo_for_budget.
  rewrite (greedy_algorithm_Ok items_table budget items_table_finite).
  rewrite negative_budget_raises by (done || lia).
  unfold printed, mbind, io_bind, lift, print; cbn beta iota.
  by rewrite app_nil_l.
Qed.

Lemma demo_for_budget_negative_witness :
  demo_for_budget (-1) []
  = ([] ++ printed (print (demo_heading (-1))), Raised (Exn IndexError)).
Proof.
  apply demo_for_budget_negative. lia.
Defined.

(** ** The main block *)







